(** * A Flask blog application: forms, tables and request handlers

    Shallow embedding of [forms.py] and [main.py].

    - Python [str] values are Rocq strings (one character per code point,
      code points below 256); Python integers are [Z].
    - The three SQLAlchemy tables are lists of rows in storage order, so that
      [.first()] and [.all()] read them the way the queries do.
    - A handler is a function from the request and the application state
      (tables, login session, flashed messages) to the response it returns
      and the state it leaves behind.
    - What the external packages compute and the source cannot fix (the
      [Email] and [URL] validators of WTForms, Werkzeug's password hashing)
      is taken as a section variable. *)

From Stdlib Require Import ZArith List String Ascii Bool Lia.
Import ListNotations.

Local Open Scope string_scope.
Local Open Scope Z_scope.

(** ** Python strings *)

(** [str.isspace] on code points below 256. *)
Definition isspace (c : ascii) : bool :=
  let n := Z.of_nat (nat_of_ascii c) in
  ((9 <=? n) && (n <=? 13)) || ((28 <=? n) && (n <=? 32))
  || (n =? 133) || (n =? 160).

Fixpoint lstrip (s : string) : string :=
  match s with
  | EmptyString => EmptyString
  | String c rest => if isspace c then lstrip rest else s
  end.

Definition reversed (s : string) : string :=
  string_of_list_ascii (rev (list_ascii_of_string s)).

Definition rstrip (s : string) : string := reversed (lstrip (reversed s)).

Definition strip (s : string) : string := rstrip (lstrip s).

(** Truth value of a string: the empty string is falsy. *)
Definition truthy (s : string) : bool := negb (s =? "")%string.

Definition len (s : string) : Z := Z.of_nat (String.length s).

(** ** datetime.date and strftime *)

Record date := { year : Z; month : Z; day : Z }.

Definition month_names : list string :=
  [ "January"; "February"; "March"; "April"; "May"; "June"; "July";
    "August"; "September"; "October"; "November"; "December" ].

(** [%B] in the C locale. *)
Definition month_name (m : Z) : string :=
  nth (Z.to_nat (m - 1)) month_names "".

Definition digit (n : Z) : ascii := ascii_of_nat (48 + Z.to_nat (n mod 10)).

(** [%d]: the day of the month, zero-padded to two digits. *)
Definition two_digits (n : Z) : string :=
  String (digit (n / 10)) (String (digit n) "").

(** [%Y]: the year with century as a decimal number, as the C library
    prints it, with no padding: four digits from the year 1000 on, fewer
    before.  The years of [datetime.date] are 1..9999. *)
Definition year_with_century (n : Z) : string :=
  if n <? 10 then String (digit n) ""
  else if n <? 100 then two_digits n
  else if n <? 1000 then String (digit (n / 100)) (two_digits n)
  else String (digit (n / 1000)) (String (digit (n / 100)) (two_digits n)).

Definition directive (d : date) (c : ascii) : string :=
  match c with
  | "B"%char => month_name (month d)
  | "d"%char => two_digits (day d)
  | "Y"%char => year_with_century (year d)
  | "%"%char => "%"
  | _ => String "%" (String c "")
  end.

Fixpoint strftime (d : date) (fmt : string) : string :=
  match fmt with
  | EmptyString => EmptyString
  | String "%" (String c rest) => directive d c ++ strftime d rest
  | String c rest => String c (strftime d rest)
  end.

(** What every [datetime.date] satisfies, the length of the month apart. *)
Definition valid_date (d : date) : Prop :=
  1 <= year d <= 9999 /\ 1 <= month d <= 12 /\ 1 <= day d <= 31.

(** *** The format in words

    What "Month DD, YYYY" asks of a string, said without [strftime]: the
    English name of the month, a space, two characters that read as the day
    of the month, a comma and a space, and characters that read as the
    year, four of them from the year 1000 on. *)

Definition English_month (m : Z) : option string :=
  match m with
  | 1 => Some "January" | 2 => Some "February" | 3 => Some "March"
  | 4 => Some "April" | 5 => Some "May" | 6 => Some "June"
  | 7 => Some "July" | 8 => Some "August" | 9 => Some "September"
  | 10 => Some "October" | 11 => Some "November" | 12 => Some "December"
  | _ => None
  end.

(** Where a character stands in a string, counting from [k]. *)
Fixpoint position (c : ascii) (s : string) (k : Z) : option Z :=
  match s with
  | EmptyString => None
  | String x rest => if Ascii.eqb x c then Some k else position c rest (k + 1)
  end.

(** The value of a decimal digit. *)
Definition digit_value (c : ascii) : option Z := position c "0123456789" 0.

Fixpoint read_digits (acc : Z) (s : string) : option Z :=
  match s with
  | EmptyString => Some acc
  | String c rest =>
      match digit_value c with
      | Some v => read_digits (10 * acc + v) rest
      | None => None
      end
  end.

(** The number a non-empty string of decimal digits reads as. *)
Definition int_of_digits (s : string) : option Z :=
  match s with
  | EmptyString => None
  | _ => read_digits 0 s
  end.

Definition Month_DD_YYYY (d : date) (s : string) : Prop :=
  exists Month DD YYYY : string,
    English_month (month d) = Some Month
    /\ s = (Month ++ " " ++ DD ++ ", " ++ YYYY)%string
    /\ String.length DD = 2%nat
    /\ int_of_digits DD = Some (day d)
    /\ int_of_digits YYYY = Some (year d)
    /\ (1000 <= year d -> String.length YYYY = 4%nat).

(** ** The request and the bound form fields *)

(** The methods with which a request can reach a view of this application:
    every rule accepts [GET] and, with it, [HEAD]; five rules also accept
    [POST].  Any other method is answered by Flask with no view called. *)
Inductive Method := GET | HEAD | POST.

(** What a handler sees of the HTTP request: the method, whether the CSRF
    token Flask-WTF adds to every [FlaskForm] checks out, and the posted
    fields. *)
Record Request := {
  method : Method;
  csrf_token_valid : bool;
  form : list (string * string)
}.

Definition is_submitted (req : Request) : bool :=
  match method req with POST => true | GET | HEAD => false end.

Fixpoint getlist_first (name : string) (fd : list (string * string))
  : option string :=
  match fd with
  | [] => None
  | (k, v) :: rest => if (k =? name)%string then Some v
                      else getlist_first name rest
  end.

(** The data of a string field after the form is built: the posted value when
    the request is a submission that carries the field, and otherwise the
    value the constructor was given (the empty value when it was given
    none). *)
Definition field_data (req : Request) (name default : string) : string :=
  if is_submitted req then
    match getlist_first name (form req) with
    | Some v => v
    | None => default
    end
  else default.

(** ** forms.py *)

(** [DataRequired()]: the data is truthy and, for a string, still truthy once
    stripped. *)
Definition DataRequired (data : string) : bool :=
  truthy data && truthy (strip data).

(** [Length(min=..., max=...)], [max = -1] meaning no upper bound. *)
Definition Length (min max : Z) (data : string) : bool :=
  let length := if truthy data then len data else 0 in
  (min <=? length) && ((max =? -1) || (length <=? max)).

Module CreatePostForm.
Record t := { title : string; subtitle : string; img_url : string;
              body : string }.
End CreatePostForm.

Module RegisterForm.
Record t := { email : string; password : string; name : string }.
End RegisterForm.

Module LoginForm.
Record t := { email : string; password : string }.
End LoginForm.

Module CommentForm.
Record t := { comment : string }.
End CommentForm.

(** ** main.py: the tables *)

Module User.
Record t := { id : Z; email : string; password : string; name : string }.
End User.

Module BlogPost.
Record t := {
  id : Z;
  author_id : option Z;
  title : string;
  subtitle : string;
  date : string;
  body : string;
  img_url : string
}.
End BlogPost.

Module Comment.
Record t := {
  id : Z;
  author_id : option Z;
  post_id : option Z;
  text : string
}.
End Comment.

(** The application state between requests: the three tables, the user id
    Flask-Login keeps in the session cookie, and the messages the views have
    flashed, in order (when a page shows and drops them is the templates'
    matter, and the templates are not part of the source). *)
Record State := {
  users : list User.t;
  blog_posts : list BlogPost.t;
  comments : list Comment.t;
  session_user_id : option Z;
  flashes : list string
}.

Inductive Exception :=
| AttributeError
| IntegrityError
| UnmappedInstanceError.

Record Url := url_for { endpoint : string; url_post_id : option Z }.

(** The keyword arguments handed to [render_template], besides the form and
    [current_user] that every page gets. *)
Inductive Context :=
| page
| index_page (all_posts : list BlogPost.t)
| make_post_page (is_edit : bool)
| post_page (post : option BlogPost.t).

(** What a view function returns or raises.  [render_template] stands for the
    call with its arguments, [unauthorized] for what
    [login_manager.unauthorized()] answers, [raised] for an exception that
    leaves the view. *)
Inductive Response :=
| render_template (template : string) (context : Context)
| redirect (location : Url)
| abort (code : Z)
| unauthorized
| raised (e : Exception).

Definition Handler := Request -> State -> Response * State.

(** ** Building the forms from the request *)

Definition new_CreatePostForm (req : Request)
    (title subtitle img_url body : string) : CreatePostForm.t :=
  {| CreatePostForm.title := field_data req "title" title;
     CreatePostForm.subtitle := field_data req "subtitle" subtitle;
     CreatePostForm.img_url := field_data req "img_url" img_url;
     CreatePostForm.body := field_data req "body" body |}.

Definition new_RegisterForm (req : Request) : RegisterForm.t :=
  {| RegisterForm.email := field_data req "email" "";
     RegisterForm.password := field_data req "password" "";
     RegisterForm.name := field_data req "name" "" |}.

Definition new_LoginForm (req : Request) : LoginForm.t :=
  {| LoginForm.email := field_data req "email" "";
     LoginForm.password := field_data req "password" "" |}.

Definition new_CommentForm (req : Request) : CommentForm.t :=
  {| CommentForm.comment := field_data req "comment" "" |}.

(** ** The database session *)

Definition set_users (us : list User.t) (st : State) : State :=
  {| users := us; blog_posts := blog_posts st; comments := comments st;
     session_user_id := session_user_id st; flashes := flashes st |}.

Definition set_blog_posts (ps : list BlogPost.t) (st : State) : State :=
  {| users := users st; blog_posts := ps; comments := comments st;
     session_user_id := session_user_id st; flashes := flashes st |}.

Definition set_comments (cs : list Comment.t) (st : State) : State :=
  {| users := users st; blog_posts := blog_posts st; comments := cs;
     session_user_id := session_user_id st; flashes := flashes st |}.

Definition set_session (uid : option Z) (st : State) : State :=
  {| users := users st; blog_posts := blog_posts st; comments := comments st;
     session_user_id := uid; flashes := flashes st |}.

(** [flash(message)]. *)
Definition flash (message : string) (st : State) : State :=
  {| users := users st; blog_posts := blog_posts st; comments := comments st;
     session_user_id := session_user_id st;
     flashes := (flashes st ++ [message])%list |}.

(** The integer primary key a new row gets: one more than the largest in
    the table. *)
Definition next_id (ids : list Z) : Z := 1 + fold_right Z.max 0 ids.

(** [User.query.get(id)]. *)
Definition User_query_get (uid : Z) (st : State) : option User.t :=
  find (fun u => User.id u =? uid) (users st).

(** [User.query.filter_by(email=...).first()]. *)
Definition User_query_filter_by_email_first (email : string) (st : State)
  : option User.t :=
  find (fun u => (User.email u =? email)%string) (users st).

(** The integers the default SQLite store can hold and be asked for. *)
Definition sqlite_integer (n : Z) : Prop := - 2 ^ 63 <= n < 2 ^ 63.

(** [BlogPost.query.get(id)], for an id the store can be asked for
    ([sqlite_integer]).  A larger one the driver refuses before any row is
    read; the lookup does not show that, and what is proved about ids that
    no post has is proved for the ids in the range. *)
Definition BlogPost_query_get (pid : Z) (st : State) : option BlogPost.t :=
  find (fun p => BlogPost.id p =? pid) (blog_posts st).

(** [BlogPost.query.all()]. *)
Definition BlogPost_query_all (st : State) : list BlogPost.t := blog_posts st.

(** [post.blog_comments]: the comments whose [post_id] is the post's id. *)
Definition blog_comments (post : BlogPost.t) (st : State) : list Comment.t :=
  filter (fun c => match Comment.post_id c with
                   | Some pid => pid =? BlogPost.id post
                   | None => false
                   end) (comments st).

(** The outcome of [db.session.add(row); db.session.commit()]: the row as
    stored and the new state, or the exception of a constraint the table
    declares, the transaction being rolled back. *)
Inductive Commit (A : Type) :=
| committed (row : A) (st : State)
| rolled_back (e : Exception).
Arguments committed {A} row st.
Arguments rolled_back {A} e.

(** Adding a user: [email] is declared [unique=True]. *)
Definition add_user (email password name : string) (st : State)
  : Commit User.t :=
  if existsb (fun u => (User.email u =? email)%string) (users st)
  then rolled_back IntegrityError
  else
    let new_user := {| User.id := next_id (map User.id (users st));
                       User.email := email;
                       User.password := password;
                       User.name := name |} in
    committed new_user (set_users (users st ++ [new_user])%list st).

(** Adding a post: [title] is declared [unique=True]. *)
Definition add_post (title subtitle body img_url date : string)
    (author : User.t) (st : State) : Commit BlogPost.t :=
  if existsb (fun p => (BlogPost.title p =? title)%string) (blog_posts st)
  then rolled_back IntegrityError
  else
    let new_post := {| BlogPost.id := next_id (map BlogPost.id (blog_posts st));
                       BlogPost.author_id := Some (User.id author);
                       BlogPost.title := title;
                       BlogPost.subtitle := subtitle;
                       BlogPost.date := date;
                       BlogPost.body := body;
                       BlogPost.img_url := img_url |} in
    committed new_post (set_blog_posts (blog_posts st ++ [new_post])%list st).

(** The four assignments of [edit_post] on a loaded row. *)
Definition assign_fields (title subtitle img_url body : string)
    (post : BlogPost.t) : BlogPost.t :=
  {| BlogPost.id := BlogPost.id post;
     BlogPost.author_id := BlogPost.author_id post;
     BlogPost.title := title;
     BlogPost.subtitle := subtitle;
     BlogPost.date := BlogPost.date post;
     BlogPost.body := body;
     BlogPost.img_url := img_url |}.

(** Committing the assignments: the row with the post's primary key is
    rewritten, unless another row already has the new title. *)
Definition update_post (post : BlogPost.t)
    (title subtitle img_url body : string) (st : State) : Commit BlogPost.t :=
  if existsb (fun q => negb (BlogPost.id q =? BlogPost.id post)
                       && (BlogPost.title q =? title)%string) (blog_posts st)
  then rolled_back IntegrityError
  else
    committed (assign_fields title subtitle img_url body post)
      (set_blog_posts
         (map (fun q => if BlogPost.id q =? BlogPost.id post
                        then assign_fields title subtitle img_url body q
                        else q) (blog_posts st)) st).

(** Adding a comment: no column of the table can reject the row. *)
Definition add_comment (text : string) (comment_author : User.t)
    (parent_post : option BlogPost.t) (st : State) : State :=
  let new_comment := {| Comment.id := next_id (map Comment.id (comments st));
                        Comment.author_id := Some (User.id comment_author);
                        Comment.post_id := option_map BlogPost.id parent_post;
                        Comment.text := text |} in
  set_comments (comments st ++ [new_comment])%list st.

(** What the unit of work does to a comment of a deleted post: the
    [blog_comments] relationship has no delete cascade, so the comment is
    kept and its foreign key is set to NULL. *)
Definition detach (pid : Z) (c : Comment.t) : Comment.t :=
  match Comment.post_id c with
  | Some p => if p =? pid
              then {| Comment.id := Comment.id c;
                      Comment.author_id := Comment.author_id c;
                      Comment.post_id := None;
                      Comment.text := Comment.text c |}
              else c
  | None => c
  end.

(** [db.session.delete(post); db.session.commit()] on a loaded post. *)
Definition delete_row (post : BlogPost.t) (st : State) : State :=
  set_comments (map (detach (BlogPost.id post)) (comments st))
    (set_blog_posts
       (filter (fun q => negb (BlogPost.id q =? BlogPost.id post))
          (blog_posts st)) st).

(** ** Flask-Login *)

(** [load_user]: the session's user id is looked up in the table. *)
Definition load_user (user_id : Z) (st : State) : option User.t :=
  User_query_get user_id st.

(** [current_user]: [None] stands for the anonymous user. *)
Definition current_user (st : State) : option User.t :=
  match session_user_id st with
  | Some uid => load_user uid st
  | None => None
  end.

Definition is_authenticated (st : State) : bool :=
  match current_user st with Some _ => true | None => false end.

Definition login_user (user : User.t) (st : State) : State :=
  set_session (Some (User.id user)) st.

Definition logout_user (st : State) : State := set_session None st.

(** [@login_required]. *)
Definition login_required (funct : Handler) : Handler :=
  fun req st =>
    if is_authenticated st then funct req st else (unauthorized, st).

(** ** The URL map

    The rules [@app.route] registers, a rule standing for a URL it matched,
    and the methods each one accepts: [GET] when none are given, and
    [HEAD] wherever [GET] is accepted. *)

Inductive Rule :=
| rule_get_all_posts
| rule_register
| rule_login
| rule_logout
| rule_about
| rule_contact
| rule_add_new_post
| rule_edit_post (post_id : Z)
| rule_show_post (post_id : Z)
| rule_delete_post (post_id : Z).

Definition methods (rule : Rule) : list Method :=
  match rule with
  | rule_register | rule_login | rule_add_new_post
  | rule_edit_post _ | rule_show_post _ => [GET; HEAD; POST]
  | _ => [GET; HEAD]
  end.

Definition Method_eqb (a b : Method) : bool :=
  match a, b with
  | GET, GET | HEAD, HEAD | POST, POST => true
  | _, _ => false
  end.

Definition allowed (rule : Rule) (m : Method) : bool :=
  existsb (Method_eqb m) (methods rule).

(** ** What the schema promises about the tables *)

(** Primary keys. *)
Definition keys_unique (st : State) : Prop :=
  NoDup (map User.id (users st))
  /\ NoDup (map BlogPost.id (blog_posts st))
  /\ NoDup (map Comment.id (comments st)).

(** The two [unique=True] columns. *)
Definition unique_columns (st : State) : Prop :=
  NoDup (map User.email (users st))
  /\ NoDup (map BlogPost.title (blog_posts st)).

(** Foreign keys and the session: a post and a comment have an author in the
    user table, a comment's post, when it has one, is in the post table, and
    the session's user id is a user's. *)
Definition references_valid (st : State) : Prop :=
  (forall uid, session_user_id st = Some uid ->
               In uid (map User.id (users st)))
  /\ (forall p, In p (blog_posts st) ->
        exists uid, BlogPost.author_id p = Some uid
                    /\ In uid (map User.id (users st)))
  /\ (forall c, In c (comments st) ->
        exists uid, Comment.author_id c = Some uid
                    /\ In uid (map User.id (users st)))
  /\ (forall c pid, In c (comments st) -> Comment.post_id c = Some pid ->
        In pid (map BlogPost.id (blog_posts st))).

(** The ways one request can change the state: not at all, by a flashed
    message, by a login or a logout, or by one committed write. *)
Inductive Step (st : State) : State -> Prop :=
| step_none : Step st st
| step_flash (message : string) : Step st (flash message st)
| step_login (user : User.t) :
    In user (users st) -> Step st (login_user user st)
| step_logout : Step st (logout_user st)
| step_register (email password name : string) (new_user : User.t)
    (st1 : State) :
    add_user email password name st = committed new_user st1 ->
    Step st (login_user new_user st1)
| step_add_post (title subtitle body img_url date : string)
    (author : User.t) (new_post : BlogPost.t) (st1 : State) :
    current_user st = Some author -> User.id author = 1 ->
    add_post title subtitle body img_url date author st
    = committed new_post st1 ->
    Step st st1
| step_update_post (title subtitle img_url body : string)
    (admin : User.t) (post post' : BlogPost.t) (st1 : State) :
    current_user st = Some admin -> User.id admin = 1 ->
    In post (blog_posts st) ->
    update_post post title subtitle img_url body st = committed post' st1 ->
    Step st st1
| step_add_comment (text : string) (user : User.t)
    (parent : option BlogPost.t) :
    current_user st = Some user ->
    (forall p, parent = Some p -> In p (blog_posts st)) ->
    Step st (add_comment text user parent st)
| step_delete (admin : User.t) (post : BlogPost.t) :
    current_user st = Some admin -> User.id admin = 1 ->
    In post (blog_posts st) ->
    Step st (delete_row post st).

(** What committing the assignments of [update_post] does to one row. *)
Definition rewrite_row (pid : Z) (title subtitle img_url body : string)
    (q : BlogPost.t) : BlogPost.t :=
  if BlogPost.id q =? pid then assign_fields title subtitle img_url body q
  else q.

(** ** Sample data

    Stand-ins for the package functions, with no claim to be the real ones,
    and a small database, for running the views on concrete requests. *)

Definition sample_Email (s : string) : bool :=
  existsb (Ascii.eqb "@") (list_ascii_of_string s).

Definition sample_URL (s : string) : bool := prefix "http" s.

Definition sample_generate_password_hash (password method salt : string)
  : string :=
  (method ++ "$" ++ salt ++ "$" ++ reversed password)%string.

Definition sample_check_password_hash (pwhash password : string) : bool :=
  prefix (password ++ "$")%string (reversed pwhash).

Definition sample_admin : User.t :=
  {| User.id := 1; User.email := "admin@x.com";
     User.password :=
       sample_generate_password_hash "hunter22" "pbkdf2:sha256" "Zq3xLm0p";
     User.name := "Admin" |}.

Definition sample_alice : User.t :=
  {| User.id := 2; User.email := "a@x.com";
     User.password :=
       sample_generate_password_hash "secret" "pbkdf2:sha256" "k2Jd81aB";
     User.name := "Alice" |}.

Definition sample_post : BlogPost.t :=
  {| BlogPost.id := 1; BlogPost.author_id := Some 1;
     BlogPost.title := "T1"; BlogPost.subtitle := "first";
     BlogPost.date := "October 31, 2026"; BlogPost.body := "<p>Hello</p>";
     BlogPost.img_url := "http://x.com/1.png" |}.

Definition sample_other_post : BlogPost.t :=
  {| BlogPost.id := 2; BlogPost.author_id := Some 1;
     BlogPost.title := "T2"; BlogPost.subtitle := "second";
     BlogPost.date := "November 02, 2026"; BlogPost.body := "<p>Again</p>";
     BlogPost.img_url := "http://x.com/2.png" |}.

Definition sample_comment : Comment.t :=
  {| Comment.id := 1; Comment.author_id := Some 2; Comment.post_id := Some 1;
     Comment.text := "<p>Nice</p>" |}.

Definition sample_state (session : option Z) : State :=
  {| users := [sample_admin; sample_alice];
     blog_posts := [sample_post; sample_other_post];
     comments := [sample_comment];
     session_user_id := session;
     flashes := [] |}.

Definition sample_today : date := {| year := 2026; month := 11; day := 6 |}.

Definition get_request : Request :=
  {| method := GET; csrf_token_valid := false; form := [] |}.

Definition post_request (fields : list (string * string)) : Request :=
  {| method := POST; csrf_token_valid := true; form := fields |}.

Section App.

(** The validators of WTForms whose verdict the source leaves to the
    package. *)
Variable Email : string -> bool.
Variable URL : string -> bool.

(** [werkzeug.security]: [generate_password_hash password method salt], the
    salt being the random one of the requested length, and
    [check_password_hash pwhash password]. *)
Variable generate_password_hash : string -> string -> string -> string.
Variable check_password_hash : string -> string -> bool.

(** *** Validation of each form: every validator of every field passes and
    so does the CSRF token. *)

Definition validate_CreatePostForm (req : Request) (f : CreatePostForm.t)
  : bool :=
  csrf_token_valid req
  && DataRequired (CreatePostForm.title f)
  && DataRequired (CreatePostForm.subtitle f)
  && (DataRequired (CreatePostForm.img_url f) && URL (CreatePostForm.img_url f))
  && DataRequired (CreatePostForm.body f).

Definition validate_RegisterForm (req : Request) (f : RegisterForm.t) : bool :=
  csrf_token_valid req
  && (DataRequired (RegisterForm.email f) && Email (RegisterForm.email f))
  && (DataRequired (RegisterForm.password f)
      && Length 5 (-1) (RegisterForm.password f))
  && DataRequired (RegisterForm.name f).

Definition validate_LoginForm (req : Request) (f : LoginForm.t) : bool :=
  csrf_token_valid req
  && (DataRequired (LoginForm.email f) && Email (LoginForm.email f))
  && (DataRequired (LoginForm.password f)
      && Length 5 (-1) (LoginForm.password f)).

Definition validate_CommentForm (req : Request) (f : CommentForm.t) : bool :=
  csrf_token_valid req && DataRequired (CommentForm.comment f).

(** [form.validate_on_submit()], given the form's [validate()]. *)
Definition validate_on_submit (req : Request) (validate : bool) : bool :=
  is_submitted req && validate.

(** *** The view functions *)

Definition get_all_posts : Handler := fun req st =>
  let posts := BlogPost_query_all st in
  (render_template "index.html" (index_page posts), st).

(** [salt] is the random salt [generate_password_hash] draws. *)
Definition register (salt : string) : Handler := fun req st =>
  let register_form := new_RegisterForm req in
  if validate_on_submit req (validate_RegisterForm req register_form) then
    let user :=
      User_query_filter_by_email_first (RegisterForm.email register_form) st in
    match user with
    | Some _ =>
        (redirect (url_for "login" None),
         flash "You've already Sign up with that email. Please login" st)
    | None =>
        let hash_and_salted_password :=
          generate_password_hash (RegisterForm.password register_form)
            "pbkdf2:sha256" salt in
        match add_user (RegisterForm.email register_form)
                hash_and_salted_password
                (RegisterForm.name register_form) st with
        | committed new_user st' =>
            (redirect (url_for "get_all_posts" None), login_user new_user st')
        | rolled_back e => (raised e, st)
        end
    end
  else (render_template "register.html" page, st).

Definition login : Handler := fun req st =>
  let login_form := new_LoginForm req in
  if validate_on_submit req (validate_LoginForm req login_form) then
    let user :=
      User_query_filter_by_email_first (LoginForm.email login_form) st in
    match user with
    | None =>
        (redirect (url_for "login" None),
         flash "This email doesn't exist. Please try again" st)
    | Some user =>
        if negb (check_password_hash (User.password user)
                   (LoginForm.password login_form))
        then (redirect (url_for "login" None),
              flash "Incorrect Password. Please Try again" st)
        else (redirect (url_for "get_all_posts" None), login_user user st)
    end
  else (render_template "login.html" page, st).

Definition logout : Handler := fun req st =>
  (redirect (url_for "get_all_posts" None), logout_user st).

Definition about : Handler := fun req st =>
  (render_template "about.html" page, st).

Definition contact : Handler := fun req st =>
  (render_template "contact.html" page, st).

(** [@admin_only].  The anonymous user has no [id]: reading it raises. *)
Definition admin_only (funct : Handler) : Handler := fun req st =>
  match current_user st with
  | None => (raised AttributeError, st)
  | Some user =>
      if negb (User.id user =? 1) then (abort 403, st)
      else funct req st
  end.

(** The body of [add_new_post]; [today] is [date.today()].  Only a mapped
    [User] can be a post's [author]. *)
Definition add_new_post (today : date) : Handler := fun req st =>
  let form := new_CreatePostForm req "" "" "" "" in
  if validate_on_submit req (validate_CreatePostForm req form) then
    match current_user st with
    | None => (raised AttributeError, st)
    | Some author =>
        match add_post (CreatePostForm.title form)
                (CreatePostForm.subtitle form)
                (CreatePostForm.body form)
                (CreatePostForm.img_url form)
                (strftime today "%B %d, %Y")
                author st with
        | committed _ st' => (redirect (url_for "get_all_posts" None), st')
        | rolled_back e => (raised e, st)
        end
    end
  else (render_template "make-post.html" (make_post_page false), st).

(** The body of [edit_post].  [BlogPost.query.get] answers [None] for an
    unknown id, and reading [post.title] then raises. *)
Definition edit_post (post_id : Z) : Handler := fun req st =>
  match BlogPost_query_get post_id st with
  | None => (raised AttributeError, st)
  | Some post =>
      let edit_form :=
        new_CreatePostForm req (BlogPost.title post) (BlogPost.subtitle post)
          (BlogPost.img_url post) (BlogPost.body post) in
      if validate_on_submit req (validate_CreatePostForm req edit_form) then
        match update_post post (CreatePostForm.title edit_form)
                (CreatePostForm.subtitle edit_form)
                (CreatePostForm.img_url edit_form)
                (CreatePostForm.body edit_form) st with
        | committed post' st' =>
            (redirect (url_for "show_post" (Some (BlogPost.id post'))), st')
        | rolled_back e => (raised e, st)
        end
      else (render_template "make-post.html" (make_post_page true), st)
  end.

Definition show_post (post_id : Z) : Handler := fun req st =>
  let form := new_CommentForm req in
  let requested_post := BlogPost_query_get post_id st in
  if validate_on_submit req (validate_CommentForm req form) then
    match current_user st with
    | Some user =>
        let st' := add_comment (CommentForm.comment form) user
                     requested_post st in
        (render_template "post.html" (post_page requested_post), st')
    | None =>
        (redirect (url_for "login" None),
         flash "You need to log in or register to comment" st)
    end
  else (render_template "post.html" (post_page requested_post), st).

(** The body of [delete_post].  [db.session.delete(None)] raises: [None] is
    not a mapped instance. *)
Definition delete_post (post_id : Z) : Handler := fun req st =>
  match BlogPost_query_get post_id st with
  | None => (raised UnmappedInstanceError, st)
  | Some post_to_delete =>
      (redirect (url_for "get_all_posts" None), delete_row post_to_delete st)
  end.

(** *** The three decorated views, as the routes call them *)

Definition new_post_view (today : date) : Handler :=
  login_required (admin_only (add_new_post today)).

Definition edit_post_view (post_id : Z) : Handler :=
  login_required (admin_only (edit_post post_id)).

Definition delete_view (post_id : Z) : Handler :=
  login_required (admin_only (delete_post post_id)).

(** *** The application: a request on a matched rule

    A method the rule does not accept is answered 405 before any view is
    called.  [salt] and [today] are what [register] and [add_new_post] would
    draw and read. *)
Definition dispatch (salt : string) (today : date) (rule : Rule) : Handler :=
  fun req st =>
    if allowed rule (method req) then
      match rule with
      | rule_get_all_posts => get_all_posts req st
      | rule_register => register salt req st
      | rule_login => login req st
      | rule_logout => logout req st
      | rule_about => about req st
      | rule_contact => contact req st
      | rule_add_new_post => new_post_view today req st
      | rule_edit_post post_id => edit_post_view post_id req st
      | rule_show_post post_id => show_post post_id req st
      | rule_delete_post post_id => delete_view post_id req st
      end
    else (abort 405, st).

(** ** Properties *)

(** *** Queries and keys *)

Lemma find_existsb {A} (f : A -> bool) (l : list A) :
  existsb f l = match find f l with Some _ => true | None => false end.
Proof.
  induction l as [|a l IH]; simpl; [reflexivity|].
  destruct (f a); simpl; [reflexivity | exact IH].
Qed.

Lemma find_app_none {A} (f : A -> bool) (l1 l2 : list A) :
  find f l1 = None -> find f (l1 ++ l2)%list = find f l2.
Proof.
  induction l1 as [|a l1 IH]; simpl; [reflexivity|].
  destruct (f a); [discriminate | exact IH].
Qed.

Lemma next_id_above (ids : list Z) (x : Z) : In x ids -> x < next_id ids.
Proof.
  unfold next_id. induction ids as [|a ids IH]; cbn [fold_right In]; [tauto|].
  intros [-> | Hin]; [lia | specialize (IH Hin); lia].
Qed.

Lemma next_id_fresh_user (us : list User.t) :
  find (fun u => User.id u =? next_id (map User.id us)) us = None.
Proof.
  destruct (find _ us) as [u|] eqn:E; [|reflexivity].
  apply find_some in E. destruct E as [Hin Heq].
  apply Z.eqb_eq in Heq.
  pose proof (next_id_above (map User.id us) (User.id u) (in_map _ _ _ Hin)).
  lia.
Qed.

(** *** The decorators *)

Lemma login_required_authenticated (funct : Handler) req st user :
  current_user st = Some user ->
  login_required funct req st = funct req st.
Proof.
  intros H. unfold login_required, is_authenticated. now rewrite H.
Qed.

Lemma admin_only_forbidden (funct : Handler) req st user :
  current_user st = Some user -> User.id user <> 1 ->
  admin_only funct req st = (abort 403, st).
Proof.
  intros H Hid. unfold admin_only. rewrite H.
  destruct (User.id user =? 1) eqn:E; [apply Z.eqb_eq in E; contradiction|].
  reflexivity.
Qed.

Lemma admin_only_admin (funct : Handler) req st user :
  current_user st = Some user -> User.id user = 1 ->
  admin_only funct req st = funct req st.
Proof.
  intros H Hid. unfold admin_only. rewrite H, Hid. reflexivity.
Qed.

(** C1. On the three admin-only views, a request of an authenticated user
    whose id is not 1 is answered by [abort(403)] whatever the wrapped
    function is (it is never called), and the state, so every table, is left
    as it was; for the user with id 1 the decorated view is the wrapped
    function itself. *)
Theorem admin_only_decorator :
  forall (today : date) (post_id : Z) (req : Request) (st : State)
         (user : User.t),
    current_user st = Some user ->
    (User.id user <> 1 ->
       (forall funct : Handler,
           login_required (admin_only funct) req st = (abort 403, st))
       /\ new_post_view today req st = (abort 403, st)
       /\ edit_post_view post_id req st = (abort 403, st)
       /\ delete_view post_id req st = (abort 403, st))
    /\
    (User.id user = 1 ->
       (forall funct : Handler,
           login_required (admin_only funct) req st = funct req st)
       /\ new_post_view today req st = add_new_post today req st
       /\ edit_post_view post_id req st = edit_post post_id req st
       /\ delete_view post_id req st = delete_post post_id req st).
Proof.
  intros today post_id req st user Hcur.
  assert (Hauth : forall funct : Handler,
             login_required (admin_only funct) req st
             = admin_only funct req st)
    by (intros; eapply login_required_authenticated; eassumption).
  split; intros Hid.
  - assert (Hall : forall funct : Handler,
               login_required (admin_only funct) req st = (abort 403, st)).
    { intros funct. rewrite Hauth. eapply admin_only_forbidden; eassumption. }
    unfold new_post_view, edit_post_view, delete_view.
    repeat split; auto.
  - assert (Hall : forall funct : Handler,
               login_required (admin_only funct) req st = funct req st).
    { intros funct. rewrite Hauth. eapply admin_only_admin; eassumption. }
    unfold new_post_view, edit_post_view, delete_view.
    repeat split; auto.
Qed.

(** *** Registration and login *)

Lemma Length_short (min : Z) (data : string) :
  len data < min -> 0 < min -> Length min (-1) data = false.
Proof.
  intros Hlen Hmin. unfold Length.
  destruct (truthy data); apply andb_false_intro1; apply Z.leb_gt; lia.
Qed.

(** Registration answers with the redirect to the home page exactly when
    the form validates and no user has the email. *)
Lemma register_succeeds salt req st :
  let register_form := new_RegisterForm req in
  validate_on_submit req (validate_RegisterForm req register_form) = true ->
  User_query_filter_by_email_first (RegisterForm.email register_form) st
  = None ->
  exists st', register salt req st
              = (redirect (url_for "get_all_posts" None), st').
Proof.
  intros register_form Hv Hnone. unfold register.
  fold register_form. rewrite Hv, Hnone.
  unfold add_user. rewrite find_existsb.
  unfold User_query_filter_by_email_first in Hnone. rewrite Hnone.
  eexists; reflexivity.
Qed.

(** C2, as amended. When a user with the submitted email already exists,
    registration never changes the user table (nor the other tables or the
    session); if the form passes validation the answer is the redirect to
    the login page with the already-signed-up message flashed, and if it
    does not, the registration page is rendered again and nothing
    changes. *)
Theorem register_existing_email :
  forall (salt : string) (req : Request) (st : State) (user : User.t),
    let register_form := new_RegisterForm req in
    User_query_filter_by_email_first (RegisterForm.email register_form) st
    = Some user ->
    users (snd (register salt req st)) = users st
    /\ blog_posts (snd (register salt req st)) = blog_posts st
    /\ comments (snd (register salt req st)) = comments st
    /\ session_user_id (snd (register salt req st)) = session_user_id st
    /\ (validate_on_submit req (validate_RegisterForm req register_form)
        = true ->
        register salt req st
        = (redirect (url_for "login" None),
           flash "You've already Sign up with that email. Please login" st))
    /\ (validate_on_submit req (validate_RegisterForm req register_form)
        = false ->
        register salt req st = (render_template "register.html" page, st)).
Proof.
  intros salt req st user register_form Hsome.
  unfold register. fold register_form. rewrite Hsome.
  destruct (validate_on_submit req (validate_RegisterForm req register_form));
    cbn; repeat split; try reflexivity; intros; discriminate.
Qed.

Lemma register_success_inv salt req st st' :
  register salt req st = (redirect (url_for "get_all_posts" None), st') ->
  let register_form := new_RegisterForm req in
  validate_on_submit req (validate_RegisterForm req register_form) = true
  /\ User_query_filter_by_email_first (RegisterForm.email register_form) st
     = None
  /\ exists new_user,
      add_user (RegisterForm.email register_form)
        (generate_password_hash (RegisterForm.password register_form)
           "pbkdf2:sha256" salt)
        (RegisterForm.name register_form) st
      = committed new_user (set_users (users st ++ [new_user])%list st)
      /\ st' = login_user new_user
                 (set_users (users st ++ [new_user])%list st).
Proof.
  intros H register_form. unfold register in H. fold register_form in H.
  destruct (validate_on_submit req _) eqn:Hv; [|discriminate].
  destruct (User_query_filter_by_email_first _ st) eqn:Hq; [discriminate|].
  split; [reflexivity|]. split; [reflexivity|].
  unfold add_user in *. destruct (existsb _ (users st)); [discriminate|].
  injection H as <-. eexists; split; reflexivity.
Qed.

Lemma validate_login_of_register req req' :
  validate_on_submit req (validate_RegisterForm req (new_RegisterForm req))
  = true ->
  is_submitted req' = true -> csrf_token_valid req' = true ->
  LoginForm.email (new_LoginForm req')
  = RegisterForm.email (new_RegisterForm req) ->
  LoginForm.password (new_LoginForm req')
  = RegisterForm.password (new_RegisterForm req) ->
  validate_on_submit req' (validate_LoginForm req' (new_LoginForm req'))
  = true.
Proof.
  unfold validate_on_submit, validate_RegisterForm, validate_LoginForm.
  intros Hv Hs Hc -> ->. rewrite Hs, Hc.
  rewrite !andb_true_iff in *. tauto.
Qed.

(** C3. Take Werkzeug's guarantee at the submitted password [p] and the
    drawn salt: the salted hash of [p] passes [check_password_hash] against
    [p].  After a successful registration with email [e] and password [p]
    the new row of the user table holds [e] and, as its password, that
    salted hash, which is not the plaintext whenever hashing [p] does not
    give [p] back; the session is the new user's.  A login submitted
    afterwards with [e] and [p], whatever the session then is, answers with
    the redirect to the home page and makes that same user the current
    user. *)
Theorem register_then_login :
  forall (salt : string) (req : Request) (st st' : State),
    let e := RegisterForm.email (new_RegisterForm req) in
    let p := RegisterForm.password (new_RegisterForm req) in
    check_password_hash (generate_password_hash p "pbkdf2:sha256" salt) p
    = true ->
    register salt req st = (redirect (url_for "get_all_posts" None), st') ->
    exists new_user : User.t,
      users st' = (users st ++ [new_user])%list
      /\ User.email new_user = e
      /\ User.password new_user = generate_password_hash p "pbkdf2:sha256" salt
      /\ (generate_password_hash p "pbkdf2:sha256" salt <> p ->
          User.password new_user <> p)
      /\ current_user st' = Some new_user
      /\ forall (req' : Request) (st1 : State),
          is_submitted req' = true ->
          csrf_token_valid req' = true ->
          LoginForm.email (new_LoginForm req') = e ->
          LoginForm.password (new_LoginForm req') = p ->
          users st1 = users st' ->
          login req' st1
          = (redirect (url_for "get_all_posts" None), login_user new_user st1)
          /\ current_user (login_user new_user st1) = Some new_user.
Proof.
  intros salt req st st' e p check_generate Hreg.
  destruct (register_success_inv _ _ _ _ Hreg) as (Hv & Hnone & u & Hadd & ->).
  fold e in Hnone, Hadd. fold p in Hadd.
  unfold add_user in Hadd.
  destruct (existsb _ (users st)); [discriminate|].
  injection Hadd as Hu _.
  assert (Hid : User.id u = next_id (map User.id (users st)))
    by (rewrite <- Hu; reflexivity).
  assert (Hem : User.email u = e) by (rewrite <- Hu; reflexivity).
  assert (Hpw : User.password u = generate_password_hash p "pbkdf2:sha256" salt)
    by (rewrite <- Hu; reflexivity).
  assert (Hget : find (fun v => User.id v =? User.id u)
                   (users st ++ [u])%list = Some u).
  { rewrite find_app_none by (rewrite Hid; apply next_id_fresh_user).
    cbn. now rewrite Z.eqb_refl. }
  assert (Hfirst : find (fun v => (User.email v =? e)%string)
                     (users st ++ [u])%list = Some u).
  { rewrite find_app_none by exact Hnone.
    cbn. rewrite Hem. now rewrite String.eqb_refl. }
  exists u.
  split; [reflexivity|]. split; [exact Hem|]. split; [exact Hpw|].
  split; [rewrite Hpw; auto|].
  split.
  - unfold current_user, login_user, load_user, User_query_get. cbn.
    exact Hget.
  - intros req' st1 Hs Hc He Hp Hus.
    assert (Hcur : current_user (login_user u st1) = Some u).
    { unfold current_user, login_user, load_user, User_query_get. cbn.
      rewrite Hus. exact Hget. }
    split; [|exact Hcur].
    unfold login.
    rewrite (validate_login_of_register req req' Hv Hs Hc He Hp).
    unfold User_query_filter_by_email_first. rewrite He, Hus.
    change (users (login_user u (set_users (users st ++ [u]) st)))
      with (users st ++ [u])%list.
    rewrite Hfirst, Hp, Hpw, check_generate. reflexivity.
Qed.

(** C4, as amended. For a login form that passes validation: when no user
    has the email the answer is the redirect to the login page with the
    no-such-email message flashed, and when a user has it but the hash check
    fails, the same redirect with the incorrect-password message; the two
    messages differ.  Whether or not the form validates, a login for which
    no user matches or the hash check fails leaves the session and the
    tables as they were. *)
Theorem login_failures :
  forall (req : Request) (st : State),
    let login_form := new_LoginForm req in
    let user :=
      User_query_filter_by_email_first (LoginForm.email login_form) st in
    let rejected :=
      match user with
      | None => true
      | Some u => negb (check_password_hash (User.password u)
                          (LoginForm.password login_form))
      end in
    (validate_on_submit req (validate_LoginForm req login_form) = true ->
       (user = None ->
          login req st
          = (redirect (url_for "login" None),
             flash "This email doesn't exist. Please try again" st))
       /\ (forall u, user = Some u ->
             check_password_hash (User.password u)
               (LoginForm.password login_form) = false ->
             login req st
             = (redirect (url_for "login" None),
                flash "Incorrect Password. Please Try again" st)))
    /\ (rejected = true ->
          session_user_id (snd (login req st)) = session_user_id st
          /\ users (snd (login req st)) = users st
          /\ blog_posts (snd (login req st)) = blog_posts st
          /\ comments (snd (login req st)) = comments st)
    /\ "This email doesn't exist. Please try again"
       <> "Incorrect Password. Please Try again".
Proof.
  intros req st login_form user rejected.
  split; [|split; [|discriminate]].
  - intros Hv. unfold login. fold login_form. rewrite Hv. fold user.
    split.
    + intros ->. reflexivity.
    + intros u -> Hcheck. rewrite Hcheck. reflexivity.
  - intros Hrej. unfold login. fold login_form. fold user.
    destruct (validate_on_submit req _); [|cbn; auto].
    subst rejected. destruct user as [u|]; [|cbn; auto].
    rewrite Hrej. cbn. auto.
Qed.

(** C10. A registration or login submission whose password has fewer than
    five characters, or whose email the [Email] validator refuses, fails
    form validation: the page is rendered again and the state is the one
    before the request, so no user is created and no session is
    established. *)
Theorem short_password_or_bad_email_rejected :
  forall (salt : string) (req : Request) (st : State),
    (len (RegisterForm.password (new_RegisterForm req)) < 5
     \/ Email (RegisterForm.email (new_RegisterForm req)) = false ->
     validate_RegisterForm req (new_RegisterForm req) = false
     /\ register salt req st = (render_template "register.html" page, st))
    /\
    (len (LoginForm.password (new_LoginForm req)) < 5
     \/ Email (LoginForm.email (new_LoginForm req)) = false ->
     validate_LoginForm req (new_LoginForm req) = false
     /\ login req st = (render_template "login.html" page, st)).
Proof.
  intros salt req st. split; intros H.
  - assert (Hv : validate_RegisterForm req (new_RegisterForm req) = false).
    { unfold validate_RegisterForm. destruct H as [H | H].
      + rewrite (Length_short 5 _ H) by lia.
        rewrite !andb_false_r. reflexivity.
      + rewrite H. rewrite !andb_false_r. reflexivity. }
    split; [exact Hv|].
    unfold register, validate_on_submit. rewrite Hv, andb_false_r.
    reflexivity.
  - assert (Hv : validate_LoginForm req (new_LoginForm req) = false).
    { unfold validate_LoginForm. destruct H as [H | H].
      + rewrite (Length_short 5 _ H) by lia.
        rewrite !andb_false_r. reflexivity.
      + rewrite H. rewrite !andb_false_r. reflexivity. }
    split; [exact Hv|].
    unfold login, validate_on_submit. rewrite Hv, andb_false_r.
    reflexivity.
Qed.

(** *** Comments *)

(** C5, as amended. A comment submitted on the post page with no
    authenticated session is never stored: the comments table, and so the
    comment list of every post, is what it was.  If the form passes
    validation the login-needed message is flashed and the answer is the
    redirect to the login page; if it does not, the post page is rendered
    again. *)
Theorem anonymous_comment_not_stored :
  forall (post_id : Z) (req : Request) (st : State),
    current_user st = None ->
    let form := new_CommentForm req in
    comments (snd (show_post post_id req st)) = comments st
    /\ (forall post,
          blog_comments post (snd (show_post post_id req st))
          = blog_comments post st)
    /\ (validate_on_submit req (validate_CommentForm req form) = true ->
        show_post post_id req st
        = (redirect (url_for "login" None),
           flash "You need to log in or register to comment" st))
    /\ (validate_on_submit req (validate_CommentForm req form) = false ->
        show_post post_id req st
        = (render_template "post.html"
             (post_page (BlogPost_query_get post_id st)), st)).
Proof.
  intros post_id req st Hanon form.
  unfold show_post. fold form. rewrite Hanon.
  destruct (validate_on_submit req (validate_CommentForm req form)); cbn;
    repeat split; try reflexivity; intros; discriminate.
Qed.

(** *** Posts *)

(** A decorated view that answers with a redirect was called by the admin, and
    the redirect is the wrapped function's. *)
Lemma decorated_redirect (funct : Handler) req st loc st' :
  login_required (admin_only funct) req st = (redirect loc, st') ->
  exists user, current_user st = Some user /\ User.id user = 1
               /\ funct req st = (redirect loc, st').
Proof.
  unfold login_required, is_authenticated, admin_only.
  destruct (current_user st) as [user|]; [|discriminate].
  destruct (User.id user =? 1) eqn:E; cbn [negb]; [|discriminate].
  intros H. exists user. apply Z.eqb_eq in E. auto.
Qed.

Lemma BlogPost_query_get_some pid st post :
  BlogPost_query_get pid st = Some post ->
  In post (blog_posts st) /\ BlogPost.id post = pid.
Proof.
  unfold BlogPost_query_get. intros H. apply find_some in H.
  destruct H as [Hin Heq]. apply Z.eqb_eq in Heq. auto.
Qed.

Lemma find_map_same_key {A} (key : A -> Z) (g : A -> A) (k : Z) (l : list A) :
  (forall a, key (g a) = key a) ->
  find (fun a => key a =? k) (map g l)
  = option_map g (find (fun a => key a =? k) l).
Proof.
  intros Hkey. induction l as [|a l IH]; cbn; [reflexivity|].
  rewrite Hkey. destruct (key a =? k); [reflexivity | exact IH].
Qed.

Lemma decorated_admin (funct : Handler) req st user :
  current_user st = Some user -> User.id user = 1 ->
  login_required (admin_only funct) req st = funct req st.
Proof.
  intros Hcur Hid.
  rewrite (login_required_authenticated _ _ _ _ Hcur).
  apply (admin_only_admin _ _ _ _ Hcur Hid).
Qed.

(** The three views do succeed: for the admin, an edit of a stored post with
    a valid form whose title no other post has, a creation with a valid form
    whose title no post has, and a deletion of a stored post all answer with
    their redirect. *)
Lemma edit_post_succeeds post_id req st user post :
  current_user st = Some user -> User.id user = 1 ->
  BlogPost_query_get post_id st = Some post ->
  let edit_form :=
    new_CreatePostForm req (BlogPost.title post) (BlogPost.subtitle post)
      (BlogPost.img_url post) (BlogPost.body post) in
  validate_on_submit req (validate_CreatePostForm req edit_form) = true ->
  (forall q, In q (blog_posts st) -> BlogPost.id q <> BlogPost.id post ->
             BlogPost.title q <> CreatePostForm.title edit_form) ->
  exists st',
    edit_post_view post_id req st
    = (redirect (url_for "show_post" (Some post_id)), st').
Proof.
  intros Hcur Hid Hget edit_form Hv Hfree.
  unfold edit_post_view. rewrite (decorated_admin _ _ _ _ Hcur Hid).
  unfold edit_post. rewrite Hget. fold edit_form. rewrite Hv.
  unfold update_post.
  destruct (existsb _ (blog_posts st)) eqn:E.
  - apply existsb_exists in E. destruct E as (q & Hq & Hb).
    apply andb_true_iff in Hb. destruct Hb as [Hne Heq].
    apply negb_true_iff, Z.eqb_neq in Hne. apply String.eqb_eq in Heq.
    destruct (Hfree q Hq Hne Heq).
  - destruct (BlogPost_query_get_some _ _ _ Hget) as [_ <-].
    eexists; reflexivity.
Qed.

Lemma add_new_post_succeeds today req st user :
  current_user st = Some user -> User.id user = 1 ->
  let form := new_CreatePostForm req "" "" "" "" in
  validate_on_submit req (validate_CreatePostForm req form) = true ->
  (forall q, In q (blog_posts st) ->
             BlogPost.title q <> CreatePostForm.title form) ->
  exists st',
    new_post_view today req st = (redirect (url_for "get_all_posts" None), st').
Proof.
  intros Hcur Hid form Hv Hfree.
  unfold new_post_view. rewrite (decorated_admin _ _ _ _ Hcur Hid).
  unfold add_new_post. fold form. rewrite Hv, Hcur.
  unfold add_post.
  destruct (existsb _ (blog_posts st)) eqn:E.
  - apply existsb_exists in E. destruct E as (q & Hq & Heq).
    apply String.eqb_eq in Heq. destruct (Hfree q Hq Heq).
  - eexists; reflexivity.
Qed.

Lemma delete_post_succeeds post_id req st user post :
  current_user st = Some user -> User.id user = 1 ->
  BlogPost_query_get post_id st = Some post ->
  delete_view post_id req st
  = (redirect (url_for "get_all_posts" None), delete_row post st).
Proof.
  intros Hcur Hid Hget.
  unfold delete_view. rewrite (decorated_admin _ _ _ _ Hcur Hid).
  unfold delete_post. rewrite Hget. reflexivity.
Qed.

(** C6. A successful edit (the decorated view answers with its redirect)
    rewrites, in the row of the post, the title, subtitle, body and image
    URL with the form's data and nothing else: the row keeps its id, author
    and date, every row with another id is kept as it is and where it is,
    and the users, the comments, the session and the flashed messages are
    unchanged. *)
Theorem edit_post_frame :
  forall (post_id : Z) (req : Request) (st st' : State) (loc : Url),
    edit_post_view post_id req st = (redirect loc, st') ->
    exists post : BlogPost.t,
      BlogPost_query_get post_id st = Some post
      /\ loc = url_for "show_post" (Some post_id)
      /\ let edit_form :=
           new_CreatePostForm req (BlogPost.title post)
             (BlogPost.subtitle post) (BlogPost.img_url post)
             (BlogPost.body post) in
         let edited :=
           assign_fields (CreatePostForm.title edit_form)
             (CreatePostForm.subtitle edit_form)
             (CreatePostForm.img_url edit_form)
             (CreatePostForm.body edit_form) in
         blog_posts st'
         = map (fun q => if BlogPost.id q =? post_id then edited q else q)
             (blog_posts st)
         /\ BlogPost_query_get post_id st' = Some (edited post)
         /\ (forall q, BlogPost.id (edited q) = BlogPost.id q)
         /\ (forall q, BlogPost.author_id (edited q) = BlogPost.author_id q)
         /\ (forall q, BlogPost.date (edited q) = BlogPost.date q)
         /\ BlogPost.title (edited post) = CreatePostForm.title edit_form
         /\ BlogPost.subtitle (edited post) = CreatePostForm.subtitle edit_form
         /\ BlogPost.body (edited post) = CreatePostForm.body edit_form
         /\ BlogPost.img_url (edited post) = CreatePostForm.img_url edit_form
         /\ (forall n q, nth_error (blog_posts st) n = Some q ->
                         BlogPost.id q <> post_id ->
                         nth_error (blog_posts st') n = Some q)
         /\ List.length (blog_posts st') = List.length (blog_posts st)
         /\ users st' = users st
         /\ comments st' = comments st
         /\ session_user_id st' = session_user_id st
         /\ flashes st' = flashes st.
Proof.
  intros post_id req st st' loc Hview.
  apply decorated_redirect in Hview. destruct Hview as (user & _ & _ & Hedit).
  unfold edit_post in Hedit.
  destruct (BlogPost_query_get post_id st) as [post|] eqn:Hget;
    [|discriminate].
  destruct (BlogPost_query_get_some _ _ _ Hget) as [_ Hid].
  destruct (validate_on_submit req _); [|discriminate].
  unfold update_post in Hedit.
  destruct (existsb _ (blog_posts st)); [discriminate|].
  injection Hedit as <- <-. rewrite Hid.
  exists post. split; [reflexivity|]. split; [reflexivity|].
  cbv zeta.
  split; [reflexivity|].
  split.
  { unfold BlogPost_query_get. cbn [blog_posts set_blog_posts].
    rewrite (find_map_same_key BlogPost.id).
    - unfold BlogPost_query_get in Hget. rewrite Hget. cbn.
      rewrite Hid, Z.eqb_refl. reflexivity.
    - intros a. destruct (BlogPost.id a =? post_id); reflexivity. }
  repeat (split; [reflexivity|]).
  split.
  { intros n q Hn Hneq. cbn [blog_posts set_blog_posts].
    rewrite nth_error_map, Hn. cbn.
    destruct (BlogPost.id q =? post_id) eqn:E; [|reflexivity].
    apply Z.eqb_eq in E. contradiction. }
  split; [cbn [blog_posts set_blog_posts]; apply length_map|].
  repeat split.
Qed.

(** *** The date of a post *)

Lemma forallb_range (P : Z -> bool) (lo n : nat) :
  forallb P (map Z.of_nat (seq lo n)) = true ->
  forall z, Z.of_nat lo <= z < Z.of_nat (lo + n) -> P z = true.
Proof.
  clear Email URL generate_password_hash check_password_hash.
  intros H z Hz. rewrite forallb_forall in H. apply H.
  apply in_map_iff. exists (Z.to_nat z). split; [lia|].
  apply in_seq. lia.
Qed.

(** The two characters of [%d] read as the day. *)
Lemma two_digits_read (n : Z) :
  0 <= n <= 99 -> int_of_digits (two_digits n) = Some n.
Proof.
  clear Email URL generate_password_hash check_password_hash.
  intros Hn.
  assert (Hall : forallb (fun z => match int_of_digits (two_digits z) with
                                   | Some v => v =? z
                                   | None => false
                                   end) (map Z.of_nat (seq 0 100)) = true)
    by (vm_compute; reflexivity).
  pose proof (forallb_range _ 0 100 Hall n ltac:(lia)) as H. cbv beta in H.
  destruct (int_of_digits (two_digits n)) as [v|]; [|discriminate].
  apply Z.eqb_eq in H. now subst.
Qed.

(** The characters of [%Y] read as the year, and are four from 1000 on. *)
Lemma year_with_century_read (n : Z) :
  1 <= n <= 9999 ->
  int_of_digits (year_with_century n) = Some n
  /\ (1000 <= n -> String.length (year_with_century n) = 4%nat).
Proof.
  clear Email URL generate_password_hash check_password_hash.
  intros Hn. split.
  - assert (Hall : forallb
                     (fun z => match int_of_digits (year_with_century z) with
                               | Some v => v =? z
                               | None => false
                               end) (map Z.of_nat (seq 1 (Z.to_nat 9999))) = true)
      by (vm_compute; reflexivity).
    pose proof (forallb_range _ 1 (Z.to_nat 9999) Hall n ltac:(lia)) as H.
    cbv beta in H.
    destruct (int_of_digits (year_with_century n)) as [v|]; [|discriminate].
    apply Z.eqb_eq in H. now subst.
  - intros Hbig. unfold year_with_century.
    destruct (n <? 10) eqn:E1; [apply Z.ltb_lt in E1; lia|].
    destruct (n <? 100) eqn:E2; [apply Z.ltb_lt in E2; lia|].
    destruct (n <? 1000) eqn:E3; [apply Z.ltb_lt in E3; lia|].
    reflexivity.
Qed.

Lemma append_empty (s : string) : (s ++ "")%string = s.
Proof.
  clear Email URL generate_password_hash check_password_hash.
  induction s as [|c s IH]; cbn; [reflexivity | now rewrite IH].
Qed.

(** ["%B %d, %Y"] writes "Month DD, YYYY". *)
Lemma strftime_Month_DD_YYYY (d : date) :
  valid_date d -> Month_DD_YYYY d (strftime d "%B %d, %Y").
Proof.
  clear Email URL generate_password_hash check_password_hash.
  destruct d as [y m dd]. unfold valid_date. cbn [year month day].
  intros (Hy & Hm & Hd).
  destruct (year_with_century_read y Hy) as [Hread Hlen].
  assert (Hday : int_of_digits (two_digits dd) = Some dd)
    by (apply two_digits_read; lia).
  assert (Hcases : m = 1 \/ m = 2 \/ m = 3 \/ m = 4 \/ m = 5 \/ m = 6
                   \/ m = 7 \/ m = 8 \/ m = 9 \/ m = 10 \/ m = 11 \/ m = 12)
    by lia.
  unfold Month_DD_YYYY. cbn [year month day].
  repeat (destruct Hcases as [-> | Hcases]); try subst m;
    (eexists _, (two_digits dd), (year_with_century y);
     split; [reflexivity|];
     split; [cbn; rewrite append_empty; reflexivity|];
     split; [reflexivity|];
     split; [exact Hday|]; split; [exact Hread | exact Hlen]).
Qed.

(** C7. A successful creation (the decorated view answers with its redirect)
    appends one post whose date is today's date formatted by
    ["%B %d, %Y"], which for every date a [datetime.date] can hold is
    "Month DD, YYYY" as the words say it: the English month name, the day
    in two digits, a comma, and the year, in four digits from 1000 on.  The
    post's author is the current user and its fields are the form's;
    the form was a submission that passed validation, so title, subtitle,
    image URL and body passed [DataRequired] and the image URL passed [URL],
    and no stored post had the title.  When a stored post already has the
    submitted title, a validated submission by the admin ends in the
    integrity error of the unique title and stores nothing. *)
Theorem add_new_post_creates :
  forall (today : date) (req : Request) (st : State),
    let form := new_CreatePostForm req "" "" "" "" in
    (forall (loc : Url) (st' : State),
        new_post_view today req st = (redirect loc, st') ->
        exists (author : User.t) (new_post : BlogPost.t),
          current_user st = Some author
          /\ loc = url_for "get_all_posts" None
          /\ st' = set_blog_posts (blog_posts st ++ [new_post])%list st
          /\ BlogPost.date new_post = strftime today "%B %d, %Y"
          /\ (valid_date today ->
              Month_DD_YYYY today (BlogPost.date new_post))
          /\ BlogPost.author_id new_post = Some (User.id author)
          /\ BlogPost.title new_post = CreatePostForm.title form
          /\ BlogPost.subtitle new_post = CreatePostForm.subtitle form
          /\ BlogPost.body new_post = CreatePostForm.body form
          /\ BlogPost.img_url new_post = CreatePostForm.img_url form
          /\ validate_on_submit req (validate_CreatePostForm req form) = true
          /\ DataRequired (CreatePostForm.title form) = true
          /\ DataRequired (CreatePostForm.subtitle form) = true
          /\ DataRequired (CreatePostForm.img_url form) = true
          /\ URL (CreatePostForm.img_url form) = true
          /\ DataRequired (CreatePostForm.body form) = true
          /\ CreatePostForm.body form <> ""
          /\ (forall p, In p (blog_posts st) ->
                        BlogPost.title p <> CreatePostForm.title form))
    /\
    (forall (author : User.t) (p : BlogPost.t),
        current_user st = Some author -> User.id author = 1 ->
        validate_on_submit req (validate_CreatePostForm req form) = true ->
        In p (blog_posts st) ->
        BlogPost.title p = CreatePostForm.title form ->
        new_post_view today req st = (raised IntegrityError, st)).
Proof.
  intros today req st form. split.
  - intros loc st' Hview.
    apply decorated_redirect in Hview. destruct Hview as (user & Hcur & _ & Hnew).
    unfold add_new_post in Hnew. fold form in Hnew.
    destruct (validate_on_submit req _) eqn:Hv; [|discriminate].
    rewrite Hcur in Hnew. unfold add_post in Hnew.
    destruct (existsb _ (blog_posts st)) eqn:Hex; [discriminate|].
    injection Hnew as <- <-.
    eexists user, _. split; [exact Hcur|]. split; [reflexivity|].
    split; [reflexivity|]. cbn [BlogPost.date BlogPost.author_id
      BlogPost.title BlogPost.subtitle BlogPost.body BlogPost.img_url].
    split; [reflexivity|].
    split; [intros Hdate; apply strftime_Month_DD_YYYY; exact Hdate|].
    repeat (split; [reflexivity|]).
    unfold validate_on_submit, validate_CreatePostForm in Hv.
    rewrite !andb_true_iff in Hv.
    destruct Hv as (_ & ((((_ & Ht) & Hs) & (Hi & Hu)) & Hb)).
    repeat (split; [assumption|]).
    split.
    + intros Heq. rewrite Heq in Hb. discriminate.
    + intros p Hin Heq.
      assert (existsb (fun q => (BlogPost.title q
                                 =? CreatePostForm.title form)%string)
                (blog_posts st) = true).
      { apply existsb_exists. exists p. split; [exact Hin|].
        rewrite Heq. apply String.eqb_refl. }
      congruence.
  - intros author p Hcur Hid Hv Hin Heq.
    unfold new_post_view.
    rewrite (login_required_authenticated _ _ _ _ Hcur).
    rewrite (admin_only_admin _ _ _ _ Hcur Hid).
    unfold add_new_post. fold form. rewrite Hv, Hcur. unfold add_post.
    replace (existsb _ (blog_posts st)) with true; [reflexivity|].
    symmetry. apply existsb_exists. exists p. split; [exact Hin|].
    rewrite Heq. apply String.eqb_refl.
Qed.

(** C8, as amended. For a post id in the store's integer range that no
    post has, the lookup answers [None] and neither view answers with a
    not-found error.  The post page
    goes on without a post: it renders the page with [post=None] (after
    storing the comment with no parent post when an authenticated user
    submitted a valid one) or, for a valid anonymous submission, redirects
    to the login page.  The delete view, called by the admin, ends in the
    unmapped-instance error of [db.session.delete(None)] and changes
    nothing. *)
Theorem missing_post_not_reported :
  forall (post_id : Z) (req : Request) (st : State),
    sqlite_integer post_id ->
    BlogPost_query_get post_id st = None ->
    fst (show_post post_id req st) <> abort 404
    /\ (fst (show_post post_id req st)
        = render_template "post.html" (post_page None)
        \/ fst (show_post post_id req st) = redirect (url_for "login" None))
    /\ (validate_on_submit req (validate_CommentForm req (new_CommentForm req))
        = false ->
        show_post post_id req st
        = (render_template "post.html" (post_page None), st))
    /\ (forall user,
          validate_on_submit req
            (validate_CommentForm req (new_CommentForm req)) = true ->
          current_user st = Some user ->
          show_post post_id req st
          = (render_template "post.html" (post_page None),
             add_comment (CommentForm.comment (new_CommentForm req)) user
               None st))
    /\ delete_post post_id req st = (raised UnmappedInstanceError, st)
    /\ (forall user,
          current_user st = Some user -> User.id user = 1 ->
          delete_view post_id req st = (raised UnmappedInstanceError, st)).
Proof.
  intros post_id req st _ Hnone.
  assert (Hdel : delete_post post_id req st
                 = (raised UnmappedInstanceError, st))
    by (unfold delete_post; rewrite Hnone; reflexivity).
  assert (Hshow :
            show_post post_id req st
            = if validate_on_submit req
                   (validate_CommentForm req (new_CommentForm req))
              then match current_user st with
                   | Some user =>
                       (render_template "post.html" (post_page None),
                        add_comment (CommentForm.comment (new_CommentForm req))
                          user None st)
                   | None =>
                       (redirect (url_for "login" None),
                        flash "You need to log in or register to comment" st)
                   end
              else (render_template "post.html" (post_page None), st))
    by (unfold show_post; rewrite Hnone; reflexivity).
  split; [|split; [|split; [|split; [|split]]]].
  - rewrite Hshow.
    destruct (validate_on_submit req _); [destruct (current_user st)|];
      discriminate.
  - rewrite Hshow.
    destruct (validate_on_submit req _); [destruct (current_user st)|];
      cbn; auto.
  - intros Hv. rewrite Hshow, Hv. reflexivity.
  - intros user Hv Hu. rewrite Hshow, Hv, Hu. reflexivity.
  - exact Hdel.
  - intros user Hu Hid. unfold delete_view.
    rewrite (login_required_authenticated _ _ _ _ Hu).
    rewrite (admin_only_admin _ _ _ _ Hu Hid). exact Hdel.
Qed.

Lemma detach_id pid c : Comment.id (detach pid c) = Comment.id c.
Proof.
  unfold detach. destruct (Comment.post_id c) as [p|]; [|reflexivity].
  destruct (p =? pid); reflexivity.
Qed.

Lemma detach_text pid c : Comment.text (detach pid c) = Comment.text c.
Proof.
  unfold detach. destruct (Comment.post_id c) as [p|]; [|reflexivity].
  destruct (p =? pid); reflexivity.
Qed.

Lemma detach_author_id pid c :
  Comment.author_id (detach pid c) = Comment.author_id c.
Proof.
  unfold detach. destruct (Comment.post_id c) as [p|]; [|reflexivity].
  destruct (p =? pid); reflexivity.
Qed.

Lemma detach_post_id pid c :
  Comment.post_id c = Some pid -> Comment.post_id (detach pid c) = None.
Proof.
  unfold detach. intros ->. rewrite Z.eqb_refl. reflexivity.
Qed.

(** C9. A successful deletion (the decorated view answers with its redirect)
    removes the post from the table the home page lists: no listed post has
    its id, and the posts with other ids are all still there.  No row of
    the comments table is deleted: every comment is kept with its id, its
    author and its text, in the same order, and the comments of the deleted
    post are in the table with no parent post. *)
Theorem delete_post_effect :
  forall (post_id : Z) (req : Request) (st st' : State) (loc : Url),
    delete_view post_id req st = (redirect loc, st') ->
    exists post : BlogPost.t,
      BlogPost_query_get post_id st = Some post
      /\ loc = url_for "get_all_posts" None
      /\ (forall req',
            get_all_posts req' st'
            = (render_template "index.html" (index_page (blog_posts st')),
               st'))
      /\ ~ In post (blog_posts st')
      /\ (forall q, In q (blog_posts st') -> BlogPost.id q <> post_id)
      /\ BlogPost_query_get post_id st' = None
      /\ (forall q, In q (blog_posts st) -> BlogPost.id q <> post_id ->
                    In q (blog_posts st'))
      /\ comments st' = map (detach post_id) (comments st)
      /\ List.length (comments st') = List.length (comments st)
      /\ map Comment.id (comments st') = map Comment.id (comments st)
      /\ map Comment.author_id (comments st')
         = map Comment.author_id (comments st)
      /\ map Comment.text (comments st') = map Comment.text (comments st)
      /\ (forall c, In c (blog_comments post st) ->
            exists c', In c' (comments st')
                       /\ Comment.id c' = Comment.id c
                       /\ Comment.author_id c' = Comment.author_id c
                       /\ Comment.text c' = Comment.text c
                       /\ Comment.post_id c' = None)
      /\ users st' = users st.
Proof.
  intros post_id req st st' loc Hview.
  apply decorated_redirect in Hview. destruct Hview as (user & _ & _ & Hdel).
  unfold delete_post in Hdel.
  destruct (BlogPost_query_get post_id st) as [post|] eqn:Hget;
    [|discriminate].
  destruct (BlogPost_query_get_some _ _ _ Hget) as [Hin Hid].
  injection Hdel as <- <-.
  assert (Hgone : forall q,
             In q (blog_posts (delete_row post st)) ->
             BlogPost.id q <> post_id).
  { intros q Hq. unfold delete_row in Hq. cbn in Hq.
    apply filter_In in Hq. destruct Hq as [_ Hq]. rewrite Hid in Hq.
    apply negb_true_iff, Z.eqb_neq in Hq. exact Hq. }
  exists post. split; [reflexivity|]. split; [reflexivity|].
  split; [reflexivity|].
  split; [intros Hp; apply (Hgone post Hp); exact Hid|].
  split; [exact Hgone|].
  split.
  { unfold BlogPost_query_get.
    destruct (find _ (blog_posts (delete_row post st))) as [q|] eqn:E;
      [|reflexivity].
    apply find_some in E. destruct E as [Hq Heq].
    apply Z.eqb_eq in Heq. destruct (Hgone q Hq Heq). }
  split.
  { intros q Hq Hneq. unfold delete_row. cbn. apply filter_In.
    split; [exact Hq|]. rewrite Hid.
    apply negb_true_iff, Z.eqb_neq. exact Hneq. }
  assert (Hcs : comments (delete_row post st)
                = map (detach post_id) (comments st))
    by (unfold delete_row; cbn; rewrite Hid; reflexivity).
  rewrite Hcs.
  split; [reflexivity|].
  split; [apply length_map|].
  split; [rewrite map_map; apply map_ext; apply detach_id|].
  split; [rewrite map_map; apply map_ext; apply detach_author_id|].
  split; [rewrite map_map; apply map_ext; apply detach_text|].
  split; [|reflexivity].
  intros c Hc. unfold blog_comments in Hc. apply filter_In in Hc.
  destruct Hc as [Hc Hpid].
  exists (detach post_id c).
  split; [apply in_map; exact Hc|].
  split; [apply detach_id|]. split; [apply detach_author_id|].
  split; [apply detach_text|].
  apply detach_post_id.
  destruct (Comment.post_id c) as [p|]; [|discriminate].
  apply Z.eqb_eq in Hpid. rewrite Hpid, Hid. reflexivity.
Qed.

(** *** Every request is one step *)

Lemma current_user_in st user :
  current_user st = Some user -> In user (users st).
Proof.
  unfold current_user, load_user, User_query_get.
  destruct (session_user_id st); [|discriminate].
  intros H. apply find_some in H. tauto.
Qed.

Lemma decorated_cases (funct : Handler) req st :
  (current_user st = None
   /\ login_required (admin_only funct) req st = (unauthorized, st))
  \/ (exists user, current_user st = Some user /\ User.id user <> 1
                   /\ login_required (admin_only funct) req st
                      = (abort 403, st))
  \/ (exists user, current_user st = Some user /\ User.id user = 1
                   /\ login_required (admin_only funct) req st
                      = funct req st).
Proof.
  destruct (current_user st) as [user|] eqn:Hcur.
  - right. destruct (Z.eq_dec (User.id user) 1) as [Hid | Hid].
    + right. exists user. split; [reflexivity|]. split; [exact Hid|].
      apply (decorated_admin _ _ _ _ Hcur Hid).
    + left. exists user. split; [reflexivity|]. split; [exact Hid|].
      rewrite (login_required_authenticated _ _ _ _ Hcur).
      apply (admin_only_forbidden _ _ _ _ Hcur Hid).
  - left. split; [reflexivity|].
    unfold login_required, is_authenticated. rewrite Hcur. reflexivity.
Qed.

Lemma register_step salt req st : Step st (snd (register salt req st)).
Proof.
  unfold register.
  destruct (validate_on_submit req _); [|apply step_none].
  destruct (User_query_filter_by_email_first _ st); [apply step_flash|].
  destruct (add_user _ _ _ st) as [u st1|e] eqn:Hadd; [|apply step_none].
  cbn. eapply step_register. exact Hadd.
Qed.

Lemma login_step req st : Step st (snd (login req st)).
Proof.
  unfold login.
  destruct (validate_on_submit req _); [|apply step_none].
  destruct (User_query_filter_by_email_first _ st) as [u|] eqn:Hq;
    [|apply step_flash].
  destruct (negb _); [apply step_flash|].
  cbn. apply step_login.
  unfold User_query_filter_by_email_first in Hq. apply find_some in Hq. tauto.
Qed.

Lemma show_post_step post_id req st : Step st (snd (show_post post_id req st)).
Proof.
  unfold show_post.
  destruct (validate_on_submit req _); [|apply step_none].
  destruct (current_user st) as [u|] eqn:Hcur; [|apply step_flash].
  cbn. apply step_add_comment; [exact Hcur|].
  intros p Hp. apply BlogPost_query_get_some in Hp. tauto.
Qed.

Lemma new_post_view_step today req st :
  Step st (snd (new_post_view today req st)).
Proof.
  unfold new_post_view.
  destruct (decorated_cases (add_new_post today) req st)
    as [[_ ->] | [(u & _ & _ & ->) | (u & Hcur & Hid & ->)]];
    try apply step_none.
  unfold add_new_post.
  destruct (validate_on_submit req _); [|apply step_none].
  rewrite Hcur.
  destruct (add_post _ _ _ _ _ u st) as [p st1|e] eqn:Hadd; [|apply step_none].
  cbn. eapply step_add_post; eassumption.
Qed.

Lemma edit_post_view_step post_id req st :
  Step st (snd (edit_post_view post_id req st)).
Proof.
  unfold edit_post_view.
  destruct (decorated_cases (edit_post post_id) req st)
    as [[_ ->] | [(u & _ & _ & ->) | (u & Hcur & Hid & ->)]];
    try apply step_none.
  unfold edit_post.
  destruct (BlogPost_query_get post_id st) as [post|] eqn:Hget;
    [|apply step_none].
  destruct (validate_on_submit req _); [|apply step_none].
  destruct (update_post post _ _ _ _ st) as [p st1|e] eqn:Hup;
    [|apply step_none].
  cbn. apply BlogPost_query_get_some in Hget.
  eapply step_update_post; try eassumption. tauto.
Qed.

Lemma delete_view_step post_id req st :
  Step st (snd (delete_view post_id req st)).
Proof.
  unfold delete_view.
  destruct (decorated_cases (delete_post post_id) req st)
    as [[_ ->] | [(u & _ & _ & ->) | (u & Hcur & Hid & ->)]];
    try apply step_none.
  unfold delete_post.
  destruct (BlogPost_query_get post_id st) as [post|] eqn:Hget;
    [|apply step_none].
  cbn. apply BlogPost_query_get_some in Hget.
  eapply step_delete; try eassumption. tauto.
Qed.

Lemma dispatch_step salt today rule req st :
  Step st (snd (dispatch salt today rule req st)).
Proof.
  unfold dispatch. destruct (allowed rule (method req)); [|apply step_none].
  destruct rule.
  - apply step_none.
  - apply register_step.
  - apply login_step.
  - apply step_logout.
  - apply step_none.
  - apply step_none.
  - apply new_post_view_step.
  - apply edit_post_view_step.
  - apply show_post_step.
  - apply delete_view_step.
Qed.

(** *** What the committed writes do to the tables *)

Lemma NoDup_snoc {A} (l : list A) (x : A) :
  NoDup l -> ~ In x l -> NoDup (l ++ [x])%list.
Proof.
  intros Hl Hx. induction Hl as [|a l Ha Hl IH]; cbn.
  - constructor; [tauto | constructor].
  - constructor.
    + rewrite in_app_iff. cbn. intros [H | [H | []]]; [tauto|].
      subst. apply Hx. now left.
    + apply IH. intros H. apply Hx. now right.
Qed.

Lemma NoDup_map_filter {A B} (f : A -> B) (g : A -> bool) (l : list A) :
  NoDup (map f l) -> NoDup (map f (filter g l)).
Proof.
  induction l as [|a l IH]; cbn; [auto|].
  intros H. inversion H as [|? ? Ha Hl]; subst.
  destruct (g a); cbn; [|auto].
  constructor; [|auto].
  intros Hin. apply Ha. apply in_map_iff in Hin.
  destruct Hin as (x & Hx & Hin). apply filter_In in Hin.
  apply in_map_iff. exists x. tauto.
Qed.

Lemma next_id_not_in (ids : list Z) : ~ In (next_id ids) ids.
Proof. intros H. apply next_id_above in H. lia. Qed.

Lemma add_user_committed email password name st new_user st1 :
  add_user email password name st = committed new_user st1 ->
  ~ In email (map User.email (users st))
  /\ User.id new_user = next_id (map User.id (users st))
  /\ User.email new_user = email
  /\ User.password new_user = password
  /\ User.name new_user = name
  /\ st1 = set_users (users st ++ [new_user])%list st.
Proof.
  clear Email URL generate_password_hash check_password_hash.
  unfold add_user. destruct (existsb _ (users st)) eqn:E; [discriminate|].
  intros H. injection H as <- <-. split; [|cbn; tauto].
  intros Hin. apply in_map_iff in Hin. destruct Hin as (u & Hu & Hin).
  assert (existsb (fun v => (User.email v =? email)%string) (users st) = true);
    [|congruence].
  apply existsb_exists. exists u. split; [exact Hin|].
  now apply String.eqb_eq.
Qed.

Lemma add_post_committed title subtitle body img_url date author st p st1 :
  add_post title subtitle body img_url date author st = committed p st1 ->
  ~ In title (map BlogPost.title (blog_posts st))
  /\ BlogPost.id p = next_id (map BlogPost.id (blog_posts st))
  /\ BlogPost.author_id p = Some (User.id author)
  /\ BlogPost.title p = title
  /\ st1 = set_blog_posts (blog_posts st ++ [p])%list st.
Proof.
  clear Email URL generate_password_hash check_password_hash.
  unfold add_post. destruct (existsb _ (blog_posts st)) eqn:E; [discriminate|].
  intros H. injection H as <- <-. split; [|cbn; tauto].
  intros Hin. apply in_map_iff in Hin. destruct Hin as (q & Hq & Hin).
  assert (existsb (fun v => (BlogPost.title v =? title)%string)
            (blog_posts st) = true); [|congruence].
  apply existsb_exists. exists q. split; [exact Hin|].
  now apply String.eqb_eq.
Qed.

Lemma rewrite_row_id pid t s i b q :
  BlogPost.id (rewrite_row pid t s i b q) = BlogPost.id q.
Proof. unfold rewrite_row. destruct (_ =? _); reflexivity. Qed.

Lemma rewrite_row_author_id pid t s i b q :
  BlogPost.author_id (rewrite_row pid t s i b q) = BlogPost.author_id q.
Proof. unfold rewrite_row. destruct (_ =? _); reflexivity. Qed.

Lemma update_post_committed post title subtitle img_url body st post' st1 :
  update_post post title subtitle img_url body st = committed post' st1 ->
  (forall q, In q (blog_posts st) -> BlogPost.id q <> BlogPost.id post ->
             BlogPost.title q <> title)
  /\ post' = assign_fields title subtitle img_url body post
  /\ st1 = set_blog_posts
             (map (rewrite_row (BlogPost.id post) title subtitle img_url body)
                (blog_posts st)) st.
Proof.
  unfold update_post. destruct (existsb _ (blog_posts st)) eqn:E; [discriminate|].
  intros H. injection H as <- <-. split; [|split; reflexivity].
  intros q Hq Hne Heq.
  assert (existsb (fun v => negb (BlogPost.id v =? BlogPost.id post)
                            && (BlogPost.title v =? title)%string)
            (blog_posts st) = true); [|congruence].
  apply existsb_exists. exists q. split; [exact Hq|].
  apply andb_true_iff. split.
  - now apply negb_true_iff, Z.eqb_neq.
  - now apply String.eqb_eq.
Qed.

Lemma rewrite_rows_absent pid t s i b (l : list BlogPost.t) :
  ~ In pid (map BlogPost.id l) -> map (rewrite_row pid t s i b) l = l.
Proof.
  clear Email URL generate_password_hash check_password_hash.
  induction l as [|q l IH]; cbn; [reflexivity|].
  intros H. rewrite IH by tauto. f_equal.
  unfold rewrite_row. destruct (BlogPost.id q =? pid) eqn:E; [|reflexivity].
  apply Z.eqb_eq in E. tauto.
Qed.

Lemma rewrite_rows_titles pid t s i b (l : list BlogPost.t) :
  NoDup (map BlogPost.id l) -> NoDup (map BlogPost.title l) ->
  (forall q, In q l -> BlogPost.id q <> pid -> BlogPost.title q <> t) ->
  NoDup (map BlogPost.title (map (rewrite_row pid t s i b) l)).
Proof.
  clear Email URL generate_password_hash check_password_hash.
  induction l as [|q l IH]; cbn; [constructor|].
  intros Hid Ht Hfree.
  inversion Hid as [|? ? Hq Hid']; subst.
  inversion Ht as [|? ? Hqt Ht']; subst.
  unfold rewrite_row at 1.
  destruct (BlogPost.id q =? pid) eqn:E.
  - apply Z.eqb_eq in E. subst pid.
    rewrite rewrite_rows_absent by exact Hq. cbn.
    constructor; [|exact Ht'].
    intros Hin. apply in_map_iff in Hin. destruct Hin as (x & Hx & Hin).
    apply (Hfree x); [now right | | exact Hx].
    intros Heq. apply Hq. rewrite <- Heq. now apply in_map.
  - apply Z.eqb_neq in E. constructor.
    + intros Hin. rewrite map_map in Hin. apply in_map_iff in Hin.
      destruct Hin as (x & Hx & Hin). unfold rewrite_row in Hx.
      destruct (BlogPost.id x =? pid).
      * cbn in Hx. apply (Hfree q); [now left | exact E | now symmetry].
      * apply Hqt. rewrite <- Hx. now apply in_map.
    + apply IH; [assumption | assumption |].
      intros x Hx. apply Hfree. now right.
Qed.

(** *** The steps keep what the schema promises *)

Lemma Step_keys_unique st st' :
  Step st st' -> keys_unique st -> keys_unique st'.
Proof.
  clear Email URL generate_password_hash check_password_hash.
  intros Hstep (Hu & Hp & Hc).
  destruct Hstep as [ | m | u Hin | | e pw n u st1 Hadd
                     | t s b i d a p st1 Hcur Hid Hadd
                     | t s i b a post post' st1 Hcur Hid Hin Hup
                     | text u parent Hcur Hparent
                     | a post Hcur Hid Hin ];
    unfold keys_unique; cbn; try tauto.
  - apply add_user_committed in Hadd.
    destruct Hadd as (_ & Hnew & _ & _ & _ & ->). cbn.
    split; [|tauto]. rewrite map_app. cbn. apply NoDup_snoc; [exact Hu|].
    rewrite Hnew. apply next_id_not_in.
  - apply add_post_committed in Hadd.
    destruct Hadd as (_ & Hnew & _ & _ & ->). cbn.
    split; [tauto|]. split; [|tauto].
    rewrite map_app. cbn. apply NoDup_snoc; [exact Hp|].
    rewrite Hnew. apply next_id_not_in.
  - apply update_post_committed in Hup. destruct Hup as (_ & _ & ->). cbn.
    split; [tauto|]. split; [|tauto].
    rewrite map_map.
    erewrite map_ext; [exact Hp|]. intros q. apply rewrite_row_id.
  - split; [tauto|]. split; [tauto|].
    rewrite map_app. cbn. apply NoDup_snoc; [exact Hc|].
    apply next_id_not_in.
  - split; [tauto|]. split; [apply NoDup_map_filter; exact Hp|].
    rewrite map_map. erewrite map_ext; [exact Hc|].
    intros c. apply detach_id.
Qed.

Lemma Step_unique_columns st st' :
  Step st st' -> keys_unique st -> unique_columns st -> unique_columns st'.
Proof.
  clear Email URL generate_password_hash check_password_hash.
  intros Hstep (_ & Hp & _) (He & Ht).
  destruct Hstep as [ | m | u Hin | | e pw n u st1 Hadd
                     | t s b i d a p st1 Hcur Hid Hadd
                     | t s i b a post post' st1 Hcur Hid Hin Hup
                     | text u parent Hcur Hparent
                     | a post Hcur Hid Hin ];
    unfold unique_columns; cbn; try tauto.
  - apply add_user_committed in Hadd.
    destruct Hadd as (Hfree & _ & Hnew & _ & _ & ->). cbn.
    split; [|tauto]. rewrite map_app. cbn. apply NoDup_snoc; [exact He|].
    rewrite Hnew. exact Hfree.
  - apply add_post_committed in Hadd.
    destruct Hadd as (Hfree & _ & _ & Hnew & ->). cbn.
    split; [tauto|]. rewrite map_app. cbn. apply NoDup_snoc; [exact Ht|].
    rewrite Hnew. exact Hfree.
  - apply update_post_committed in Hup. destruct Hup as (Hfree & _ & ->). cbn.
    split; [tauto|]. apply rewrite_rows_titles; assumption.
  - split; [tauto|]. apply NoDup_map_filter; exact Ht.
Qed.

Lemma Step_users st st' :
  Step st st' ->
  users st' = users st
  \/ exists email password name new_user st1,
       add_user email password name st = committed new_user st1
       /\ users st' = (users st ++ [new_user])%list.
Proof.
  clear Email URL generate_password_hash check_password_hash.
  intros Hstep.
  destruct Hstep as [ | m | u Hin | | e pw n u st1 Hadd
                     | t s b i d a p st1 Hcur Hid Hadd
                     | t s i b a post post' st1 Hcur Hid Hin Hup
                     | text u parent Hcur Hparent
                     | a post Hcur Hid Hin ];
    try (left; reflexivity).
  - right. exists e, pw, n, u, st1. split; [exact Hadd|].
    apply add_user_committed in Hadd.
    destruct Hadd as (_ & _ & _ & _ & _ & ->). reflexivity.
  - left. apply add_post_committed in Hadd.
    destruct Hadd as (_ & _ & _ & _ & ->). reflexivity.
  - left. apply update_post_committed in Hup.
    destruct Hup as (_ & _ & ->). reflexivity.
Qed.

Lemma Step_user_ids st st' uid :
  Step st st' -> In uid (map User.id (users st)) ->
  In uid (map User.id (users st')).
Proof.
  clear Email URL generate_password_hash check_password_hash.
  intros Hstep Hin.
  destruct (Step_users _ _ Hstep) as [-> | (e & pw & n & u & st1 & _ & ->)];
    [exact Hin|].
  rewrite map_app. apply in_or_app. now left.
Qed.

Lemma detach_post_id_some pid c p :
  Comment.post_id (detach pid c) = Some p ->
  Comment.post_id c = Some p /\ p <> pid.
Proof.
  unfold detach. destruct (Comment.post_id c) as [p0|] eqn:Hc.
  - destruct (p0 =? pid) eqn:E.
    + cbn. discriminate.
    + rewrite Hc. intros H. injection H as <-.
      apply Z.eqb_neq in E. tauto.
  - rewrite Hc. discriminate.
Qed.

Lemma Step_references_valid st st' :
  Step st st' -> references_valid st -> references_valid st'.
Proof.
  clear Email URL generate_password_hash check_password_hash.
  intros Hstep Href.
  pose proof (fun uid => Step_user_ids st st' uid Hstep) as Hgrow.
  destruct Href as (Hs & Hp & Hc & Hcp).
  assert (Hp' : forall p, In p (blog_posts st) ->
                  exists uid, BlogPost.author_id p = Some uid
                              /\ In uid (map User.id (users st')))
    by (intros p Hin; destruct (Hp p Hin) as (uid & ? & ?); eauto).
  assert (Hc' : forall c, In c (comments st) ->
                  exists uid, Comment.author_id c = Some uid
                              /\ In uid (map User.id (users st')))
    by (intros c Hin; destruct (Hc c Hin) as (uid & ? & ?); eauto).
  assert (Hs' : forall uid, session_user_id st = Some uid ->
                            In uid (map User.id (users st')))
    by (intros uid H; auto).
  clear Hgrow.
  destruct Hstep as [ | m | u Hin | | e pw n u st1 Hadd
                     | t s b i d a p st1 Hcur Hid Hadd
                     | t s i b a post post' st1 Hcur Hid Hin Hup
                     | text u parent Hcur Hparent
                     | a post Hcur Hid Hin ];
    unfold references_valid.
  - tauto.
  - cbn in *. tauto.
  - cbn in *. repeat split; auto.
    intros uid H. injection H as <-. now apply in_map.
  - cbn in *. repeat split; auto. discriminate.
  - apply add_user_committed in Hadd.
    destruct Hadd as (_ & _ & _ & _ & _ & ->). cbn in *.
    repeat split; auto.
    intros uid H. injection H as <-.
    rewrite map_app. apply in_or_app. right. now left.
  - apply add_post_committed in Hadd.
    destruct Hadd as (_ & _ & Hauthor & _ & ->). cbn in *.
    split; [auto|]. split; [|split].
    + intros q Hq. apply in_app_or in Hq. destruct Hq as [Hq | [<- | []]];
        [auto|].
      exists (User.id a). split; [exact Hauthor|].
      apply in_map. now apply current_user_in.
    + auto.
    + intros c pid Hin Hsome. rewrite map_app. apply in_or_app. left. eauto.
  - apply update_post_committed in Hup. destruct Hup as (_ & _ & ->).
    cbn in *. split; [auto|]. split; [|split].
    + intros q Hq. apply in_map_iff in Hq. destruct Hq as (x & <- & Hx).
      rewrite rewrite_row_author_id. auto.
    + auto.
    + intros c pid Hc0 Hsome. rewrite map_map.
      erewrite map_ext; [eauto|]. intros q. apply rewrite_row_id.
  - cbn in *. split; [auto|]. split; [auto|]. split.
    + intros c Hin. apply in_app_or in Hin. destruct Hin as [Hin | [<- | []]];
        [auto|].
      exists (User.id u). split; [reflexivity|].
      apply in_map. now apply current_user_in.
    + intros c pid Hin Hsome. apply in_app_or in Hin.
      destruct Hin as [Hin | [<- | []]]; [eauto|].
      cbn in Hsome. destruct parent as [p|]; [|discriminate].
      injection Hsome as <-. apply in_map. auto.
  - cbn in *. split; [auto|]. split; [|split].
    + intros q Hq. apply filter_In in Hq. destruct Hq as [Hq _]. auto.
    + intros c Hc0. apply in_map_iff in Hc0. destruct Hc0 as (x & <- & Hx).
      rewrite detach_author_id. auto.
    + intros c pid Hc0 Hsome. apply in_map_iff in Hc0.
      destruct Hc0 as (x & <- & Hx).
      apply detach_post_id_some in Hsome. destruct Hsome as [Hsome Hne].
      specialize (Hcp x pid Hx Hsome). apply in_map_iff in Hcp.
      destruct Hcp as (q & Hq & Hin'). apply in_map_iff. exists q.
      split; [exact Hq|]. apply filter_In. split; [exact Hin'|].
      apply negb_true_iff, Z.eqb_neq. congruence.
Qed.

Lemma Step_blog_posts st st' :
  Step st st' ->
  blog_posts st' = blog_posts st
  \/ exists admin, current_user st = Some admin /\ User.id admin = 1.
Proof.
  clear Email URL generate_password_hash check_password_hash.
  intros Hstep.
  destruct Hstep as [ | m | u Hin | | e pw n u st1 Hadd
                     | t s b i d a p st1 Hcur Hid Hadd
                     | t s i b a post post' st1 Hcur Hid Hin Hup
                     | text u parent Hcur Hparent
                     | a post Hcur Hid Hin ];
    try (left; reflexivity); try (right; exists a; tauto).
  left. apply add_user_committed in Hadd.
  destruct Hadd as (_ & _ & _ & _ & _ & ->). reflexivity.
Qed.

Lemma Step_comments st st' :
  Step st st' ->
  exists (extra : list Comment.t) (pid : option Z),
    (List.length extra <= 1)%nat
    /\ comments st'
       = (map (fun c => match pid with
                        | Some p => detach p c
                        | None => c
                        end) (comments st) ++ extra)%list.
Proof.
  clear Email URL generate_password_hash check_password_hash.
  intros Hstep.
  destruct Hstep as [ | m | u Hin | | e pw n u st1 Hadd
                     | t s b i d a p st1 Hcur Hid Hadd
                     | t s i b a post post' st1 Hcur Hid Hin Hup
                     | text u parent Hcur Hparent
                     | a post Hcur Hid Hin ].
  9: { exists [], (Some (BlogPost.id post)). split; [cbn; lia|].
       cbn. now rewrite app_nil_r. }
  8: { eexists [_], None. split; [cbn; lia|]. cbn. now rewrite map_id. }
  all: exists [], None; split; [cbn; lia|]; rewrite app_nil_r, map_id.
  all: try reflexivity.
  - apply add_user_committed in Hadd.
    destruct Hadd as (_ & _ & _ & _ & _ & ->). reflexivity.
  - apply add_post_committed in Hadd.
    destruct Hadd as (_ & _ & _ & _ & ->). reflexivity.
  - apply update_post_committed in Hup.
    destruct Hup as (_ & _ & ->). reflexivity.
Qed.

(** *** The whole application *)

(** X1. No request on any rule breaks the primary keys: if the ids of each
    table are pairwise distinct before, they are after. *)
Theorem dispatch_keeps_primary_keys :
  forall (salt : string) (today : date) (rule : Rule) (req : Request)
         (st : State),
    keys_unique st ->
    keys_unique (snd (dispatch salt today rule req st)).
Proof.
  intros salt today rule req st. apply Step_keys_unique, dispatch_step.
Qed.

(** X2. No request on any rule breaks the two unique columns: with distinct
    primary keys, if user emails and post titles are pairwise distinct
    before, they are after. *)
Theorem dispatch_keeps_unique_columns :
  forall (salt : string) (today : date) (rule : Rule) (req : Request)
         (st : State),
    keys_unique st -> unique_columns st ->
    unique_columns (snd (dispatch salt today rule req st)).
Proof.
  intros salt today rule req st. apply Step_unique_columns, dispatch_step.
Qed.

(** X3. No request on any rule leaves a dangling reference: if every post
    and comment has an author in the user table, every comment that has a
    post has it in the post table, and the session's id is a user's, the
    same holds afterwards. *)
Theorem dispatch_keeps_references :
  forall (salt : string) (today : date) (rule : Rule) (req : Request)
         (st : State),
    references_valid st ->
    references_valid (snd (dispatch salt today rule req st)).
Proof.
  intros salt today rule req st. apply Step_references_valid, dispatch_step.
Qed.

(** X4. When the current user is not the user with id 1 (nobody is logged
    in, or somebody else is), no request on any rule changes the post
    table. *)
Theorem only_admin_changes_posts :
  forall (salt : string) (today : date) (rule : Rule) (req : Request)
         (st : State),
    (forall user, current_user st = Some user -> User.id user <> 1) ->
    blog_posts (snd (dispatch salt today rule req st)) = blog_posts st.
Proof.
  intros salt today rule req st Hnot.
  destruct (Step_blog_posts _ _ (dispatch_step salt today rule req st))
    as [H | (admin & Hcur & Hid)]; [exact H|].
  destruct (Hnot admin Hcur Hid).
Qed.

(** X5. No request on any rule deletes or rewrites a user: the user table
    afterwards is the table before, or the table before with one row
    appended whose id and email no earlier row has. *)
Theorem users_append_only :
  forall (salt : string) (today : date) (rule : Rule) (req : Request)
         (st : State),
    let st' := snd (dispatch salt today rule req st) in
    users st' = users st
    \/ exists new_user,
         users st' = (users st ++ [new_user])%list
         /\ ~ In (User.id new_user) (map User.id (users st))
         /\ ~ In (User.email new_user) (map User.email (users st)).
Proof.
  intros salt today rule req st st'.
  destruct (Step_users _ _ (dispatch_step salt today rule req st))
    as [H | (e & pw & n & u & st1 & Hadd & H)]; [left; exact H|].
  right. exists u. split; [exact H|].
  apply add_user_committed in Hadd.
  destruct Hadd as (Hfree & Hid & Hem & _).
  split; [rewrite Hid; apply next_id_not_in | rewrite Hem; exact Hfree].
Qed.

(** X6. No request on any rule deletes a comment or changes a comment's
    id, author or text: the comments before are all there afterwards, in
    order, followed by at most one new comment. *)
Theorem comments_never_deleted :
  forall (salt : string) (today : date) (rule : Rule) (req : Request)
         (st : State),
    let st' := snd (dispatch salt today rule req st) in
    exists extra : list Comment.t,
      (List.length extra <= 1)%nat
      /\ map Comment.id (comments st')
         = (map Comment.id (comments st) ++ map Comment.id extra)%list
      /\ map Comment.author_id (comments st')
         = (map Comment.author_id (comments st)
            ++ map Comment.author_id extra)%list
      /\ map Comment.text (comments st')
         = (map Comment.text (comments st) ++ map Comment.text extra)%list.
Proof.
  intros salt today rule req st st'.
  destruct (Step_comments _ _ (dispatch_step salt today rule req st))
    as (extra & pid & Hlen & Hcs).
  exists extra. split; [exact Hlen|].
  fold st' in Hcs. rewrite Hcs, !map_app, !map_map.
  repeat split; f_equal; apply map_ext; intros c;
    destruct pid; auto using detach_id, detach_author_id, detach_text.
Qed.

Lemma no_token_no_validation req :
  is_submitted req && csrf_token_valid req = false ->
  (forall f, validate_on_submit req (validate_CreatePostForm req f) = false)
  /\ (forall f, validate_on_submit req (validate_RegisterForm req f) = false)
  /\ (forall f, validate_on_submit req (validate_LoginForm req f) = false)
  /\ (forall f, validate_on_submit req (validate_CommentForm req f) = false).
Proof.
  unfold validate_on_submit, validate_CreatePostForm, validate_RegisterForm,
    validate_LoginForm, validate_CommentForm.
  destruct (is_submitted req), (csrf_token_valid req); cbn;
    intros H; try discriminate; repeat split; reflexivity.
Qed.

Lemma form_views_need_token salt today req st :
  is_submitted req && csrf_token_valid req = false ->
  snd (register salt req st) = st
  /\ snd (login req st) = st
  /\ snd (new_post_view today req st) = st
  /\ (forall post_id, snd (edit_post_view post_id req st) = st)
  /\ (forall post_id, snd (show_post post_id req st) = st).
Proof.
  intros H. destruct (no_token_no_validation req H) as (Hc & Hr & Hl & Hm).
  split; [unfold register; rewrite Hr; reflexivity|].
  split; [unfold login; rewrite Hl; reflexivity|].
  split; [|split].
  - unfold new_post_view.
    destruct (decorated_cases (add_new_post today) req st)
      as [[_ ->] | [(u & _ & _ & ->) | (u & _ & _ & ->)]]; try reflexivity.
    unfold add_new_post. rewrite Hc. reflexivity.
  - intros post_id. unfold edit_post_view.
    destruct (decorated_cases (edit_post post_id) req st)
      as [[_ ->] | [(u & _ & _ & ->) | (u & _ & _ & ->)]]; try reflexivity.
    unfold edit_post. destruct (BlogPost_query_get post_id st); [|reflexivity].
    rewrite Hc. reflexivity.
  - intros post_id. unfold show_post. rewrite Hm. reflexivity.
Qed.

(** X7. A request changes a table or the logged-in user only if it is a
    [GET] or [HEAD] on the logout or the delete rule, or a [POST] with a
    valid CSRF token on one of the five rules that take a form.  So a [GET]
    or [HEAD] changes neither anywhere else, and logging out or deleting a
    post takes no form and no token.  (Flashed messages are left out: the
    templates, which are not part of the source, decide when they are
    consumed.) *)
Theorem state_changing_requests :
  forall (salt : string) (today : date) (rule : Rule) (req : Request)
         (st : State),
    let st' := snd (dispatch salt today rule req st) in
    (users st', blog_posts st', comments st', session_user_id st')
    <> (users st, blog_posts st, comments st, session_user_id st) ->
    ((method req = GET \/ method req = HEAD)
     /\ (rule = rule_logout \/ exists post_id, rule = rule_delete_post post_id))
    \/ (method req = POST /\ csrf_token_valid req = true
        /\ (rule = rule_register \/ rule = rule_login
            \/ rule = rule_add_new_post
            \/ (exists post_id, rule = rule_edit_post post_id)
            \/ (exists post_id, rule = rule_show_post post_id))).
Proof.
  intros salt today rule req st st' Hchanged. subst st'.
  assert (Hsame : snd (dispatch salt today rule req st) = st -> False)
    by (intros H; apply Hchanged; rewrite H; reflexivity).
  clear Hchanged.
  destruct (is_submitted req && csrf_token_valid req) eqn:Htok.
  - apply andb_true_iff in Htok. destruct Htok as [Hsub Hcsrf].
    assert (Hpost : method req = POST)
      by (unfold is_submitted in Hsub; destruct (method req);
          [discriminate | discriminate | reflexivity]).
    right. split; [exact Hpost|]. split; [exact Hcsrf|].
    unfold dispatch, allowed in Hsame. rewrite Hpost in Hsame.
    destruct rule; cbn in Hsame; try (exfalso; apply Hsame; reflexivity);
      eauto 6.
  - destruct (form_views_need_token salt today req st Htok)
      as (Hr & Hl & Hn & He & Hs).
    unfold dispatch in Hsame.
    destruct (allowed rule (method req)) eqn:Hall;
      [|exfalso; apply Hsame; reflexivity].
    destruct rule; try (exfalso; apply Hsame; auto; reflexivity).
    + left. unfold allowed in Hall. cbn in Hall.
      destruct (method req); [eauto | eauto | discriminate].
    + left. unfold allowed in Hall. cbn in Hall.
      destruct (method req); [eauto | eauto | discriminate].
Qed.

(** *** Comments, sessions and registration *)

(** X8. A valid comment submitted by a logged-in user on a stored post is
    stored as one new row: its id is new, its author is the current user,
    its post is the post, its text is the form's.  The post's comment list
    grows by exactly that comment, the comment list of every post with
    another id is unchanged, and the page is rendered, not redirected. *)
Theorem comment_stored :
  forall (post_id : Z) (req : Request) (st : State) (user : User.t)
         (post : BlogPost.t),
    current_user st = Some user ->
    BlogPost_query_get post_id st = Some post ->
    validate_on_submit req (validate_CommentForm req (new_CommentForm req))
    = true ->
    exists new_comment : Comment.t,
      show_post post_id req st
      = (render_template "post.html" (post_page (Some post)),
         set_comments (comments st ++ [new_comment])%list st)
      /\ ~ In (Comment.id new_comment) (map Comment.id (comments st))
      /\ Comment.author_id new_comment = Some (User.id user)
      /\ Comment.post_id new_comment = Some post_id
      /\ Comment.text new_comment = CommentForm.comment (new_CommentForm req)
      /\ blog_comments post (snd (show_post post_id req st))
         = (blog_comments post st ++ [new_comment])%list
      /\ (forall q, BlogPost.id q <> post_id ->
            blog_comments q (snd (show_post post_id req st))
            = blog_comments q st).
Proof.
  intros post_id req st user post Hcur Hget Hv.
  destruct (BlogPost_query_get_some _ _ _ Hget) as [_ Hid].
  unfold show_post. rewrite Hv, Hcur, Hget. unfold add_comment.
  eexists. split; [reflexivity|]. cbn [snd Comment.id Comment.author_id
    Comment.post_id Comment.text option_map].
  split; [apply next_id_not_in|]. split; [reflexivity|].
  split; [rewrite Hid; reflexivity|]. split; [reflexivity|].
  unfold blog_comments. cbn [comments set_comments].
  split.
  - rewrite filter_app. cbn. rewrite Z.eqb_refl. reflexivity.
  - intros q Hq. rewrite filter_app. cbn. rewrite Hid.
    destruct (post_id =? BlogPost.id q) eqn:E;
      [apply Z.eqb_eq in E; congruence|].
    apply app_nil_r.
Qed.

Lemma find_unique_key {A} (key : A -> Z) (l : list A) (a : A) :
  NoDup (map key l) -> In a l ->
  find (fun x => key x =? key a) l = Some a.
Proof.
  induction l as [|b l IH]; cbn; [tauto|].
  intros Hnd Hin. inversion Hnd as [|? ? Hb Hl]; subst.
  destruct Hin as [-> | Hin]; [now rewrite Z.eqb_refl|].
  destruct (key b =? key a) eqn:E; [|auto].
  apply Z.eqb_eq in E. exfalso. apply Hb. rewrite E. now apply in_map.
Qed.

(** X9. With distinct user ids, a login whose form is valid, whose email is
    a user's, and whose password passes the hash check against that user's
    stored hash, answers with the redirect to the home page, makes exactly
    that user the current user, and changes no table. *)
Theorem login_establishes_session :
  forall (req : Request) (st : State) (user : User.t),
    NoDup (map User.id (users st)) ->
    validate_on_submit req (validate_LoginForm req (new_LoginForm req))
    = true ->
    User_query_filter_by_email_first (LoginForm.email (new_LoginForm req)) st
    = Some user ->
    check_password_hash (User.password user)
      (LoginForm.password (new_LoginForm req)) = true ->
    login req st
    = (redirect (url_for "get_all_posts" None), login_user user st)
    /\ current_user (snd (login req st)) = Some user
    /\ users (snd (login req st)) = users st
    /\ blog_posts (snd (login req st)) = blog_posts st
    /\ comments (snd (login req st)) = comments st.
Proof.
  intros req st user Hnd Hv Hq Hcheck.
  assert (Hlogin : login req st
                   = (redirect (url_for "get_all_posts" None),
                      login_user user st))
    by (unfold login; rewrite Hv, Hq, Hcheck; reflexivity).
  rewrite Hlogin. split; [reflexivity|]. split; [|auto].
  unfold current_user, load_user, User_query_get. cbn.
  apply (find_unique_key User.id); [exact Hnd|].
  unfold User_query_filter_by_email_first in Hq.
  apply find_some in Hq. tauto.
Qed.

Lemma login_required_anonymous (funct : Handler) req st :
  current_user st = None -> login_required funct req st = (unauthorized, st).
Proof.
  intros H. unfold login_required, is_authenticated. now rewrite H.
Qed.

(** X10. When nobody is logged in, and also when the session's user id is
    no user's, a view under [@login_required] answers with what
    [login_manager.unauthorized()] gives, whatever the wrapped function is
    (it is never called, so the anonymous user's missing [id] is never read
    by [admin_only]); the state is left as it was. *)
Theorem anonymous_turned_away :
  forall (today : date) (post_id : Z) (req : Request) (st : State),
    current_user st = None ->
    (forall funct : Handler, login_required funct req st = (unauthorized, st))
    /\ new_post_view today req st = (unauthorized, st)
    /\ edit_post_view post_id req st = (unauthorized, st)
    /\ delete_view post_id req st = (unauthorized, st).
Proof.
  intros today post_id req st Hanon.
  unfold new_post_view, edit_post_view, delete_view.
  repeat split; intros; apply login_required_anonymous; exact Hanon.
Qed.

(** X11. Logging out needs no session and no form: it always answers with
    the redirect to the home page, clears the session and touches no table
    and no flashed message.  From then on the three admin views answer
    unauthorized and a valid comment submission is sent to the login
    page. *)
Theorem logout_ends_session :
  forall (today : date) (post_id : Z) (req req' : Request) (st : State),
    let st' := snd (logout req st) in
    logout req st = (redirect (url_for "get_all_posts" None), st')
    /\ current_user st' = None
    /\ users st' = users st /\ blog_posts st' = blog_posts st
    /\ comments st' = comments st /\ flashes st' = flashes st
    /\ new_post_view today req' st' = (unauthorized, st')
    /\ edit_post_view post_id req' st' = (unauthorized, st')
    /\ delete_view post_id req' st' = (unauthorized, st')
    /\ (validate_on_submit req' (validate_CommentForm req' (new_CommentForm req'))
        = true ->
        show_post post_id req' st'
        = (redirect (url_for "login" None),
           flash "You need to log in or register to comment" st')).
Proof.
  intros today post_id req req' st st'.
  assert (Hanon : current_user st' = None) by reflexivity.
  split; [reflexivity|]. split; [exact Hanon|].
  repeat (split; [reflexivity|]).
  unfold new_post_view, edit_post_view, delete_view.
  repeat (split; [apply login_required_anonymous; exact Hanon|]).
  intros Hv. unfold show_post. rewrite Hv, Hanon. reflexivity.
Qed.

(** X12. A registration whose form is valid and whose email no user has
    always goes through: the handler has looked the email up, so the insert
    meets no row with that email and the unique-email constraint holds.
    One row is appended, with a new id, the form's email and name and the
    salted hash of the form's password, and the new user is logged in. *)
Theorem register_new_email_succeeds :
  forall (salt : string) (req : Request) (st : State),
    validate_on_submit req (validate_RegisterForm req (new_RegisterForm req))
    = true ->
    User_query_filter_by_email_first
      (RegisterForm.email (new_RegisterForm req)) st = None ->
    exists new_user : User.t,
      register salt req st
      = (redirect (url_for "get_all_posts" None),
         login_user new_user (set_users (users st ++ [new_user])%list st))
      /\ ~ In (User.id new_user) (map User.id (users st))
      /\ ~ In (User.email new_user) (map User.email (users st))
      /\ User.email new_user = RegisterForm.email (new_RegisterForm req)
      /\ User.name new_user = RegisterForm.name (new_RegisterForm req)
      /\ User.password new_user
         = generate_password_hash
             (RegisterForm.password (new_RegisterForm req))
             "pbkdf2:sha256" salt.
Proof.
  intros salt req st Hv Hnone.
  unfold register. rewrite Hv, Hnone.
  destruct (add_user (RegisterForm.email (new_RegisterForm req))
              (generate_password_hash
                 (RegisterForm.password (new_RegisterForm req))
                 "pbkdf2:sha256" salt)
              (RegisterForm.name (new_RegisterForm req)) st)
    as [u st1|e] eqn:Hadd.
  - apply add_user_committed in Hadd.
    destruct Hadd as (Hfree & Hid & Hem & Hpw & Hname & ->).
    exists u. split; [reflexivity|].
    split; [rewrite Hid; apply next_id_not_in|].
    split; [rewrite Hem; exact Hfree|]. auto.
  - exfalso. unfold add_user in Hadd. rewrite find_existsb in Hadd.
    unfold User_query_filter_by_email_first in Hnone. rewrite Hnone in Hadd.
    discriminate.
Qed.

(** *** Required fields *)

Lemma lstrip_blank (s : string) :
  forallb isspace (list_ascii_of_string s) = true -> lstrip s = "".
Proof.
  induction s as [|c s IH]; cbn; [reflexivity|].
  intros H. apply andb_true_iff in H. destruct H as [-> H]. auto.
Qed.

Lemma lstrip_not_blank (s : string) :
  existsb (fun c => negb (isspace c)) (list_ascii_of_string s) = true ->
  lstrip s <> ""
  /\ existsb (fun c => negb (isspace c)) (list_ascii_of_string (lstrip s))
     = true.
Proof.
  induction s as [|c s IH]; cbn; [discriminate|].
  destruct (isspace c) eqn:E; cbn.
  - exact IH.
  - intros _. split; [discriminate|]. rewrite E. reflexivity.
Qed.

Lemma existsb_rev {A} (f : A -> bool) (l : list A) :
  existsb f (rev l) = existsb f l.
Proof.
  destruct (existsb f l) eqn:E.
  - apply existsb_exists in E. destruct E as (x & Hx & Hf).
    apply existsb_exists. exists x. split; [now apply in_rev in Hx | exact Hf].
  - destruct (existsb f (rev l)) eqn:E'; [|reflexivity].
    apply existsb_exists in E'. destruct E' as (x & Hx & Hf).
    apply in_rev in Hx.
    assert (existsb f l = true) by (apply existsb_exists; eauto).
    congruence.
Qed.

Lemma reversed_not_blank (s : string) :
  existsb (fun c => negb (isspace c)) (list_ascii_of_string (reversed s))
  = existsb (fun c => negb (isspace c)) (list_ascii_of_string s).
Proof.
  unfold reversed. rewrite list_ascii_of_string_of_list_ascii.
  apply existsb_rev.
Qed.

Lemma not_blank_not_empty (s : string) :
  existsb (fun c => negb (isspace c)) (list_ascii_of_string s) = true ->
  truthy s = true.
Proof. destruct s; [discriminate | reflexivity]. Qed.

Lemma blank_or_not (s : string) :
  existsb (fun c => negb (isspace c)) (list_ascii_of_string s)
  = negb (forallb isspace (list_ascii_of_string s)).
Proof.
  induction (list_ascii_of_string s) as [|c l IH]; cbn; [reflexivity|].
  rewrite IH. destruct (isspace c); reflexivity.
Qed.

(** [DataRequired] passes exactly the strings with a character that is not
    white space. *)
Lemma DataRequired_spec (data : string) :
  DataRequired data
  = existsb (fun c => negb (isspace c)) (list_ascii_of_string data).
Proof.
  unfold DataRequired.
  destruct (existsb _ (list_ascii_of_string data)) eqn:E.
  - rewrite (not_blank_not_empty _ E). cbn.
    apply not_blank_not_empty. unfold strip, rstrip.
    rewrite reversed_not_blank.
    apply lstrip_not_blank. rewrite reversed_not_blank.
    apply lstrip_not_blank. exact E.
  - rewrite blank_or_not in E. apply negb_false_iff in E.
    unfold strip. rewrite (lstrip_blank _ E). apply andb_false_r.
Qed.

(** X13. A comment form passes validation exactly when the request is a
    [POST] with a valid CSRF token whose comment has a character that is
    not white space.  So a comment that is empty or all white space is never
    stored, logged in or not: the post page is rendered again and nothing
    changes. *)
Theorem blank_comment_rejected :
  forall (post_id : Z) (req : Request) (st : State),
    let data := CommentForm.comment (new_CommentForm req) in
    (validate_on_submit req (validate_CommentForm req (new_CommentForm req))
     = true
     <-> method req = POST /\ csrf_token_valid req = true
         /\ existsb (fun c => negb (isspace c)) (list_ascii_of_string data)
            = true)
    /\ (forallb isspace (list_ascii_of_string data) = true ->
        show_post post_id req st
        = (render_template "post.html"
             (post_page (BlogPost_query_get post_id st)), st)).
Proof.
  clear Email URL generate_password_hash check_password_hash.
  intros post_id req st data.
  assert (Hiff :
    validate_on_submit req (validate_CommentForm req (new_CommentForm req))
    = true
    <-> method req = POST /\ csrf_token_valid req = true
        /\ existsb (fun c => negb (isspace c)) (list_ascii_of_string data)
           = true).
  { unfold validate_on_submit, validate_CommentForm, is_submitted.
    fold data. rewrite DataRequired_spec, !andb_true_iff.
    destruct (method req); intuition discriminate. }
  split; [exact Hiff|].
  intros Hblank. unfold show_post.
  destruct Hiff as [Hfwd _].
  destruct (validate_on_submit req _); [|reflexivity].
  destruct (Hfwd eq_refl) as (_ & _ & Hnb).
  rewrite blank_or_not, Hblank in Hnb. discriminate.
Qed.

(** X14. A post form in which the title, the subtitle, the image URL or the
    body is empty or all white space, or whose image URL the [URL] validator
    refuses, creates nothing and edits nothing: the new-post view and the
    edit view leave the state as it was. *)
Theorem blank_post_fields_rejected :
  forall (today : date) (post_id : Z) (req : Request) (st : State),
    let blank s := forallb isspace (list_ascii_of_string s) = true in
    let bad (f : CreatePostForm.t) :=
      blank (CreatePostForm.title f) \/ blank (CreatePostForm.subtitle f)
      \/ blank (CreatePostForm.img_url f) \/ blank (CreatePostForm.body f)
      \/ URL (CreatePostForm.img_url f) = false in
    (bad (new_CreatePostForm req "" "" "" "") ->
     snd (new_post_view today req st) = st)
    /\ (forall post,
          BlogPost_query_get post_id st = Some post ->
          bad (new_CreatePostForm req (BlogPost.title post)
                 (BlogPost.subtitle post) (BlogPost.img_url post)
                 (BlogPost.body post)) ->
          snd (edit_post_view post_id req st) = st).
Proof.
  intros today post_id req st blank bad.
  assert (Hbad : forall f, bad f ->
             validate_on_submit req (validate_CreatePostForm req f) = false).
  { intros f Hf. unfold validate_on_submit, validate_CreatePostForm.
    rewrite !DataRequired_spec, !blank_or_not.
    destruct Hf as [H | [H | [H | [H | H]]]]; rewrite H; cbn;
      rewrite ?andb_false_r; reflexivity. }
  split.
  - intros Hf. unfold new_post_view.
    destruct (decorated_cases (add_new_post today) req st)
      as [[_ ->] | [(u & _ & _ & ->) | (u & _ & _ & ->)]]; try reflexivity.
    unfold add_new_post. rewrite (Hbad _ Hf). reflexivity.
  - intros post Hget Hf. unfold edit_post_view.
    destruct (decorated_cases (edit_post post_id) req st)
      as [[_ ->] | [(u & _ & _ & ->) | (u & _ & _ & ->)]]; try reflexivity.
    unfold edit_post. rewrite Hget, (Hbad _ Hf). reflexivity.
Qed.

(** *** Who is the admin *)

(** X15. On an empty user table the first valid registration gets id 1:
    the new user is the admin, and for that session every admin-only view
    is the wrapped function. *)
Theorem first_user_is_admin :
  forall (salt : string) (req : Request) (st : State),
    users st = [] ->
    validate_on_submit req (validate_RegisterForm req (new_RegisterForm req))
    = true ->
    exists (new_user : User.t) (st' : State),
      register salt req st = (redirect (url_for "get_all_posts" None), st')
      /\ users st' = [new_user]
      /\ User.id new_user = 1
      /\ current_user st' = Some new_user
      /\ forall (funct : Handler) (req' : Request),
           login_required (admin_only funct) req' st' = funct req' st'.
Proof.
  intros salt req st Hempty Hv.
  unfold register. rewrite Hv.
  unfold User_query_filter_by_email_first, add_user. rewrite Hempty. cbn.
  eexists _, _. split; [reflexivity|].
  split; [reflexivity|]. split; [reflexivity|].
  assert (Hcur : forall u, current_user
                   (login_user u (set_users [u] st)) = Some u).
  { intros u. unfold current_user, load_user, User_query_get. cbn.
    now rewrite Z.eqb_refl. }
  split; [apply Hcur|].
  intros funct req'. eapply decorated_admin; [apply Hcur | reflexivity].
Qed.

(** X16. Whoever registers once a user with id 1 exists is not the admin:
    after the successful registration the new user is the current user, the
    id is not 1, and the three admin-only views answer [abort(403)] and
    change nothing. *)
Theorem later_user_is_not_admin :
  forall (salt : string) (req : Request) (st st' : State),
    In 1 (map User.id (users st)) ->
    register salt req st = (redirect (url_for "get_all_posts" None), st') ->
    exists new_user : User.t,
      current_user st' = Some new_user
      /\ User.id new_user <> 1
      /\ forall (today : date) (post_id : Z) (req' : Request),
           new_post_view today req' st' = (abort 403, st')
           /\ edit_post_view post_id req' st' = (abort 403, st')
           /\ delete_view post_id req' st' = (abort 403, st').
Proof.
  clear check_password_hash.
  intros salt req st st' Hone Hreg.
  destruct (register_success_inv _ _ _ _ Hreg) as (_ & _ & u & Hadd & ->).
  apply add_user_committed in Hadd. destruct Hadd as (_ & Hid & _).
  assert (Hcur : current_user
                   (login_user u (set_users (users st ++ [u])%list st))
                 = Some u).
  { unfold current_user, load_user, User_query_get. cbn.
    rewrite find_app_none by (rewrite Hid; apply next_id_fresh_user).
    cbn. now rewrite Z.eqb_refl. }
  assert (Hne : User.id u <> 1)
    by (apply next_id_above in Hone; lia).
  exists u. split; [exact Hcur|]. split; [exact Hne|].
  intros today post_id req'.
  unfold new_post_view, edit_post_view, delete_view.
  repeat split;
    rewrite (login_required_authenticated _ _ _ _ Hcur);
    apply (admin_only_forbidden _ _ _ _ Hcur Hne).
Qed.

(** X17. Registering twice: after a successful registration, any later
    valid registration with the same email, whatever its password, name and
    salt and whoever is logged in, is answered by the redirect to the login
    page and adds no user. *)
Theorem register_twice :
  forall (salt salt' : string) (req req' : Request) (st st' st2 : State),
    register salt req st = (redirect (url_for "get_all_posts" None), st') ->
    users st2 = users st' ->
    validate_on_submit req' (validate_RegisterForm req' (new_RegisterForm req'))
    = true ->
    RegisterForm.email (new_RegisterForm req')
    = RegisterForm.email (new_RegisterForm req) ->
    register salt' req' st2
    = (redirect (url_for "login" None),
       flash "You've already Sign up with that email. Please login" st2)
    /\ users (snd (register salt' req' st2)) = users st'.
Proof.
  clear URL check_password_hash.
  intros salt salt' req req' st st' st2 Hreg Hus Hv Hem.
  destruct (register_success_inv _ _ _ _ Hreg) as (_ & Hnone & u & Hadd & ->).
  apply add_user_committed in Hadd. destruct Hadd as (_ & _ & Hu & _).
  assert (Hq : exists v,
             User_query_filter_by_email_first
               (RegisterForm.email (new_RegisterForm req')) st2 = Some v).
  { unfold User_query_filter_by_email_first. rewrite Hus, Hem. cbn.
    unfold User_query_filter_by_email_first in Hnone.
    rewrite (find_app_none _ _ _ Hnone). cbn.
    rewrite Hu, String.eqb_refl. eauto. }
  destruct Hq as (v & Hq).
  unfold register. rewrite Hv, Hq. split; [reflexivity|]. exact Hus.
Qed.

(** *** Editing, creating and deleting posts *)

(** X18. Editing an id in the store's integer range that no post has ends,
    for the admin and whatever the request (a [GET] for the form included),
    in the attribute error of reading [post.title] on [None]; nothing
    changes. *)
Theorem edit_missing_post :
  forall (post_id : Z) (req : Request) (st : State) (user : User.t),
    sqlite_integer post_id ->
    current_user st = Some user -> User.id user = 1 ->
    BlogPost_query_get post_id st = None ->
    edit_post_view post_id req st = (raised AttributeError, st).
Proof.
  intros post_id req st user _ Hcur Hid Hnone.
  unfold edit_post_view. rewrite (decorated_admin _ _ _ _ Hcur Hid).
  unfold edit_post. rewrite Hnone. reflexivity.
Qed.

(** X19. A valid edit by the admin that gives the post the title of a post
    with another id ends in the integrity error of the unique title column,
    and no table changes. *)
Theorem edit_duplicate_title :
  forall (post_id : Z) (req : Request) (st : State) (user : User.t)
         (post other : BlogPost.t),
    current_user st = Some user -> User.id user = 1 ->
    BlogPost_query_get post_id st = Some post ->
    let edit_form :=
      new_CreatePostForm req (BlogPost.title post) (BlogPost.subtitle post)
        (BlogPost.img_url post) (BlogPost.body post) in
    validate_on_submit req (validate_CreatePostForm req edit_form) = true ->
    In other (blog_posts st) ->
    BlogPost.id other <> post_id ->
    BlogPost.title other = CreatePostForm.title edit_form ->
    edit_post_view post_id req st = (raised IntegrityError, st).
Proof.
  intros post_id req st user post other Hcur Hid Hget edit_form Hv Hin Hne Ht.
  destruct (BlogPost_query_get_some _ _ _ Hget) as [_ Hpid].
  unfold edit_post_view. rewrite (decorated_admin _ _ _ _ Hcur Hid).
  unfold edit_post. rewrite Hget. fold edit_form. rewrite Hv.
  unfold update_post.
  replace (existsb _ (blog_posts st)) with true; [reflexivity|].
  symmetry. apply existsb_exists. exists other. split; [exact Hin|].
  apply andb_true_iff. split.
  - apply negb_true_iff, Z.eqb_neq. congruence.
  - rewrite Ht. apply String.eqb_refl.
Qed.

Lemma NoDup_map_injective {A B} (f : A -> B) (l : list A) (a b : A) :
  NoDup (map f l) -> In a l -> In b l -> f a = f b -> a = b.
Proof.
  induction l as [|x l IH]; cbn; [tauto|].
  intros Hnd Ha Hb Heq. inversion Hnd as [|? ? Hx Hl]; subst.
  destruct Ha as [-> | Ha], Hb as [-> | Hb]; auto.
  - exfalso. apply Hx. rewrite Heq. now apply in_map.
  - exfalso. apply Hx. rewrite <- Heq. now apply in_map.
Qed.

Lemma assign_own_fields (post : BlogPost.t) :
  assign_fields (BlogPost.title post) (BlogPost.subtitle post)
    (BlogPost.img_url post) (BlogPost.body post) post = post.
Proof. destruct post; reflexivity. Qed.

Lemma set_blog_posts_same st : set_blog_posts (blog_posts st) st = st.
Proof. destruct st; reflexivity. Qed.

(** X20. With distinct ids and distinct titles, a valid edit by the admin
    that submits the values the post already has goes through (the post's
    own title is no clash) and leaves the state exactly as it was. *)
Theorem edit_same_values :
  forall (post_id : Z) (req : Request) (st : State) (user : User.t)
         (post : BlogPost.t),
    NoDup (map BlogPost.id (blog_posts st)) ->
    NoDup (map BlogPost.title (blog_posts st)) ->
    current_user st = Some user -> User.id user = 1 ->
    BlogPost_query_get post_id st = Some post ->
    let edit_form :=
      new_CreatePostForm req (BlogPost.title post) (BlogPost.subtitle post)
        (BlogPost.img_url post) (BlogPost.body post) in
    validate_on_submit req (validate_CreatePostForm req edit_form) = true ->
    CreatePostForm.title edit_form = BlogPost.title post ->
    CreatePostForm.subtitle edit_form = BlogPost.subtitle post ->
    CreatePostForm.img_url edit_form = BlogPost.img_url post ->
    CreatePostForm.body edit_form = BlogPost.body post ->
    edit_post_view post_id req st
    = (redirect (url_for "show_post" (Some post_id)), st).
Proof.
  intros post_id req st user post Hids Htitles Hcur Hid Hget edit_form Hv
    Ht Hs Hi Hb.
  destruct (BlogPost_query_get_some _ _ _ Hget) as [Hin Hpid].
  unfold edit_post_view. rewrite (decorated_admin _ _ _ _ Hcur Hid).
  unfold edit_post. rewrite Hget. fold edit_form. rewrite Hv, Ht, Hs, Hi, Hb.
  unfold update_post.
  replace (existsb _ (blog_posts st)) with false.
  - rewrite assign_own_fields.
    replace (map _ (blog_posts st)) with (blog_posts st).
    + rewrite set_blog_posts_same, Hpid. reflexivity.
    + symmetry. rewrite <- (map_id (blog_posts st)) at 2.
      apply map_ext_in. intros q Hq.
      destruct (BlogPost.id q =? BlogPost.id post) eqn:E; [|reflexivity].
      apply Z.eqb_eq in E.
      rewrite (NoDup_map_injective BlogPost.id _ q post Hids Hq Hin E).
      apply assign_own_fields.
  - symmetry. destruct (existsb _ (blog_posts st)) eqn:E; [|reflexivity].
    apply existsb_exists in E. destruct E as (q & Hq & Hc).
    apply andb_true_iff in Hc. destruct Hc as [Hne Heq].
    apply negb_true_iff, Z.eqb_neq in Hne. apply String.eqb_eq in Heq.
    exfalso. apply Hne. f_equal.
    apply (NoDup_map_injective BlogPost.title _ q post Htitles Hq Hin Heq).
Qed.

Lemma find_app_some {A} (f : A -> bool) (l1 l2 : list A) (a : A) :
  find f l1 = Some a -> find f (l1 ++ l2)%list = Some a.
Proof.
  induction l1 as [|x l1 IH]; cbn; [discriminate|].
  destruct (f x); auto.
Qed.

(** X21. A successful creation gives the post an id no stored post has:
    looking that id up afterwards finds the new post, every lookup that
    found a post before finds the same post, and the home page lists the
    old posts in their order followed by the new one. *)
Theorem created_post_lookup :
  forall (today : date) (req : Request) (st st' : State) (loc : Url),
    new_post_view today req st = (redirect loc, st') ->
    exists new_post : BlogPost.t,
      blog_posts st' = (blog_posts st ++ [new_post])%list
      /\ ~ In (BlogPost.id new_post) (map BlogPost.id (blog_posts st))
      /\ BlogPost_query_get (BlogPost.id new_post) st' = Some new_post
      /\ (forall pid p, BlogPost_query_get pid st = Some p ->
                        BlogPost_query_get pid st' = Some p)
      /\ (forall req',
            get_all_posts req' st'
            = (render_template "index.html"
                 (index_page (blog_posts st ++ [new_post])%list), st')).
Proof.
  clear Email generate_password_hash check_password_hash.
  intros today req st st' loc Hview.
  apply decorated_redirect in Hview. destruct Hview as (user & Hcur & _ & Hnew).
  unfold add_new_post in Hnew.
  destruct (validate_on_submit req _); [|discriminate].
  rewrite Hcur in Hnew.
  destruct (add_post _ _ _ _ _ user st) as [p st1|e] eqn:Hadd; [|discriminate].
  injection Hnew as _ <-.
  apply add_post_committed in Hadd. destruct Hadd as (_ & Hid & _ & _ & ->).
  assert (Hfresh : ~ In (BlogPost.id p) (map BlogPost.id (blog_posts st)))
    by (rewrite Hid; apply next_id_not_in).
  exists p. split; [reflexivity|]. split; [exact Hfresh|].
  unfold BlogPost_query_get, get_all_posts, BlogPost_query_all.
  cbn [blog_posts set_blog_posts].
  split; [|split; [|reflexivity]].
  - rewrite find_app_none; [cbn; now rewrite Z.eqb_refl|].
    destruct (find _ (blog_posts st)) as [q|] eqn:E; [|reflexivity].
    apply find_some in E. destruct E as [Hq Heq]. apply Z.eqb_eq in Heq.
    exfalso. apply Hfresh. rewrite <- Heq. now apply in_map.
  - intros pid q Hq. apply find_app_some. exact Hq.
Qed.

Lemma find_filter_other (pid gone : Z) (l : list BlogPost.t) :
  pid <> gone ->
  find (fun p => BlogPost.id p =? pid)
    (filter (fun q => negb (BlogPost.id q =? gone)) l)
  = find (fun p => BlogPost.id p =? pid) l.
Proof.
  intros Hne. induction l as [|x l IH]; cbn; [reflexivity|].
  destruct (BlogPost.id x =? gone) eqn:E; cbn.
  - apply Z.eqb_eq in E.
    destruct (BlogPost.id x =? pid) eqn:E'; [|exact IH].
    apply Z.eqb_eq in E'. congruence.
  - rewrite IH. reflexivity.
Qed.

Lemma find_filter_gone (gone : Z) (l : list BlogPost.t) :
  find (fun p => BlogPost.id p =? gone)
    (filter (fun q => negb (BlogPost.id q =? gone)) l) = None.
Proof.
  induction l as [|x l IH]; cbn; [reflexivity|].
  destruct (BlogPost.id x =? gone) eqn:E; cbn; [exact IH|].
  rewrite E. exact IH.
Qed.

Lemma blog_comments_detach (q : BlogPost.t) (gone : Z) (l : list Comment.t) :
  BlogPost.id q <> gone ->
  filter (fun c => match Comment.post_id c with
                   | Some pid => pid =? BlogPost.id q
                   | None => false
                   end) (map (detach gone) l)
  = filter (fun c => match Comment.post_id c with
                     | Some pid => pid =? BlogPost.id q
                     | None => false
                     end) l.
Proof.
  intros Hne. induction l as [|c l IH]; cbn; [reflexivity|].
  rewrite IH. unfold detach.
  destruct (Comment.post_id c) as [p|] eqn:Hp; [|rewrite Hp; reflexivity].
  destruct (p =? gone) eqn:E; [|rewrite Hp; reflexivity].
  apply Z.eqb_eq in E. subst p. cbn.
  destruct (gone =? BlogPost.id q) eqn:E'; [|reflexivity].
  apply Z.eqb_eq in E'. congruence.
Qed.

(** X22. After a successful deletion the id is gone for good: the admin's
    second delete of it ends in the unmapped-instance error, an edit of it
    in the attribute error, and the post page for it is rendered without a
    post.  The deletion is local: a lookup of any other id finds what it
    found before, and the comment list of every post with another id is
    unchanged. *)
Theorem delete_then :
  forall (post_id : Z) (req : Request) (st st' : State) (loc : Url),
    delete_view post_id req st = (redirect loc, st') ->
    (forall req', delete_view post_id req' st'
                  = (raised UnmappedInstanceError, st'))
    /\ (forall req', edit_post_view post_id req' st'
                     = (raised AttributeError, st'))
    /\ (forall req', is_submitted req' = false ->
                     show_post post_id req' st'
                     = (render_template "post.html" (post_page None), st'))
    /\ (forall pid, pid <> post_id ->
                    BlogPost_query_get pid st' = BlogPost_query_get pid st)
    /\ (forall q, BlogPost.id q <> post_id ->
                  blog_comments q st' = blog_comments q st).
Proof.
  intros post_id req st st' loc Hview.
  apply decorated_redirect in Hview. destruct Hview as (user & Hcur & Hid & Hdel).
  unfold delete_post in Hdel.
  destruct (BlogPost_query_get post_id st) as [post|] eqn:Hget;
    [|discriminate].
  destruct (BlogPost_query_get_some _ _ _ Hget) as [_ Hpid].
  injection Hdel as _ <-.
  assert (Hcur' : current_user (delete_row post st) = Some user)
    by exact Hcur.
  assert (Hgone : BlogPost_query_get post_id (delete_row post st) = None).
  { unfold BlogPost_query_get, delete_row. cbn. rewrite Hpid.
    apply find_filter_gone. }
  split; [|split; [|split; [|split]]].
  - intros req'. unfold delete_view.
    rewrite (decorated_admin _ _ _ _ Hcur' Hid).
    unfold delete_post. rewrite Hgone. reflexivity.
  - intros req'. unfold edit_post_view.
    rewrite (decorated_admin _ _ _ _ Hcur' Hid).
    unfold edit_post. rewrite Hgone. reflexivity.
  - intros req' Hsub. unfold show_post, validate_on_submit.
    rewrite Hsub, Hgone. reflexivity.
  - intros pid Hne. unfold BlogPost_query_get, delete_row. cbn.
    rewrite Hpid. apply find_filter_other. exact Hne.
  - intros q Hq. unfold blog_comments, delete_row. cbn.
    rewrite Hpid. apply blog_comments_detach. exact Hq.
Qed.

(** *** Who is logged in *)

Lemma post_views_keep_session today req st :
  session_user_id (snd (new_post_view today req st)) = session_user_id st
  /\ (forall post_id,
        session_user_id (snd (edit_post_view post_id req st))
        = session_user_id st)
  /\ (forall post_id,
        session_user_id (snd (delete_view post_id req st))
        = session_user_id st)
  /\ (forall post_id,
        session_user_id (snd (show_post post_id req st))
        = session_user_id st).
Proof.
  clear Email generate_password_hash check_password_hash.
  split; [|split; [|split]].
  - unfold new_post_view.
    destruct (decorated_cases (add_new_post today) req st)
      as [[_ ->] | [(u & _ & _ & ->) | (u & Hcur & _ & ->)]]; try reflexivity.
    unfold add_new_post.
    destruct (validate_on_submit req _); [|reflexivity].
    rewrite Hcur.
    destruct (add_post _ _ _ _ _ u st) as [p st1|e] eqn:Hadd; [|reflexivity].
    apply add_post_committed in Hadd. destruct Hadd as (_ & _ & _ & _ & ->).
    reflexivity.
  - intros post_id. unfold edit_post_view.
    destruct (decorated_cases (edit_post post_id) req st)
      as [[_ ->] | [(u & _ & _ & ->) | (u & Hcur & _ & ->)]]; try reflexivity.
    unfold edit_post.
    destruct (BlogPost_query_get post_id st) as [post|]; [|reflexivity].
    destruct (validate_on_submit req _); [|reflexivity].
    destruct (update_post post _ _ _ _ st) as [p st1|e] eqn:Hup;
      [|reflexivity].
    apply update_post_committed in Hup. destruct Hup as (_ & _ & ->).
    reflexivity.
  - intros post_id. unfold delete_view.
    destruct (decorated_cases (delete_post post_id) req st)
      as [[_ ->] | [(u & _ & _ & ->) | (u & Hcur & _ & ->)]]; try reflexivity.
    unfold delete_post.
    destruct (BlogPost_query_get post_id st); reflexivity.
  - intros post_id. unfold show_post.
    destruct (validate_on_submit req _); [|reflexivity].
    destruct (current_user st); reflexivity.
Qed.

(** X23. The session changes only through the three authentication rules.
    If a request changes who the session names, then it was a logout, and
    the session is empty; or a login whose form was valid, whose email is a
    stored user's and whose password passed the hash check against that
    user's stored hash, and the session names that user; or a registration
    that appended a user with the form's email, and the session names that
    new user.  Creating, editing, deleting and commenting never do. *)
Theorem session_changes_only_by_authentication :
  forall (salt : string) (today : date) (rule : Rule) (req : Request)
         (st : State),
    let st' := snd (dispatch salt today rule req st) in
    session_user_id st' <> session_user_id st ->
    (rule = rule_logout /\ session_user_id st' = None)
    \/ (rule = rule_login
        /\ exists user,
             validate_on_submit req
               (validate_LoginForm req (new_LoginForm req)) = true
             /\ User_query_filter_by_email_first
                  (LoginForm.email (new_LoginForm req)) st = Some user
             /\ check_password_hash (User.password user)
                  (LoginForm.password (new_LoginForm req)) = true
             /\ session_user_id st' = Some (User.id user))
    \/ (rule = rule_register
        /\ exists new_user,
             users st' = (users st ++ [new_user])%list
             /\ User.email new_user
                = RegisterForm.email (new_RegisterForm req)
             /\ session_user_id st' = Some (User.id new_user)).
Proof.
  intros salt today rule req st st' Hchanged. subst st'.
  destruct (post_views_keep_session today req st) as (Hn & He & Hd & Hs).
  unfold dispatch in *.
  destruct (allowed rule (method req));
    [|exfalso; apply Hchanged; reflexivity].
  destruct rule; try (exfalso; apply Hchanged; auto; reflexivity).
  - right. right. split; [reflexivity|].
    unfold register in *.
    destruct (validate_on_submit req _);
      [|exfalso; apply Hchanged; reflexivity].
    destruct (User_query_filter_by_email_first _ st);
      [exfalso; apply Hchanged; reflexivity|].
    destruct (add_user _ _ _ st) as [u st1|e] eqn:Hadd;
      [|exfalso; apply Hchanged; reflexivity].
    apply add_user_committed in Hadd.
    destruct Hadd as (_ & _ & Hem & _ & _ & ->).
    exists u. cbn. auto.
  - right. left. split; [reflexivity|].
    unfold login in *.
    destruct (validate_on_submit req _);
      [|exfalso; apply Hchanged; reflexivity].
    destruct (User_query_filter_by_email_first _ st) as [u|];
      [|exfalso; apply Hchanged; reflexivity].
    destruct (check_password_hash _ _) eqn:Hcheck;
      [|exfalso; apply Hchanged; reflexivity].
    exists u. cbn. auto.
  - left. split; reflexivity.
Qed.

End App.

(** ** The views on the sample data *)

Example strftime_sample :
  strftime sample_today "%B %d, %Y" = "November 06, 2026".
Proof. reflexivity. Qed.

Example DataRequired_blank : DataRequired "  " = false.
Proof. reflexivity. Qed.

Example strftime_spring :
  strftime {| year := 2024; month := 5; day := 31 |} "%B %d, %Y"
  = "May 31, 2024".
Proof. reflexivity. Qed.

Example strftime_early_year :
  strftime {| year := 999; month := 1; day := 5 |} "%B %d, %Y"
  = "January 05, 999".
Proof. reflexivity. Qed.

(** Alice (id 2) is turned away from the delete view; the admin gets the
    wrapped function. *)
Lemma admin_only_decorator_witness :
  delete_view 1 get_request (sample_state (Some 2))
  = (abort 403, sample_state (Some 2))
  /\ delete_view 1 get_request (sample_state (Some 1))
     = delete_post 1 get_request (sample_state (Some 1)).
Proof.
  split.
  - destruct (admin_only_decorator sample_URL sample_today 1 get_request
                (sample_state (Some 2)) sample_alice eq_refl) as [H _].
    apply H. cbn. lia.
  - destruct (admin_only_decorator sample_URL sample_today 1 get_request
                (sample_state (Some 1)) sample_admin eq_refl) as [_ H].
    apply H. reflexivity.
Defined.

(** Alice registers again with a valid form. *)
Lemma register_existing_email_witness :
  let req := post_request [("email", "a@x.com"); ("password", "secret");
                           ("name", "Alice")] in
  register sample_Email sample_generate_password_hash "saltsalt" req
    (sample_state None)
  = (redirect (url_for "login" None),
     flash "You've already Sign up with that email. Please login"
       (sample_state None)).
Proof.
  intros req.
  apply (register_existing_email sample_Email sample_generate_password_hash
           "saltsalt" req (sample_state None) sample_alice eq_refl).
  reflexivity.
Defined.

(** C2 as stated fails: Alice's email is taken, her second attempt carries a
    three-character password, and the answer is the registration page, not
    a redirect to the login page. *)
Lemma register_existing_email_invalid_form :
  let req := post_request [("email", "a@x.com"); ("password", "abc");
                           ("name", "Alice")] in
  User_query_filter_by_email_first "a@x.com" (sample_state None)
  = Some sample_alice
  /\ register sample_Email sample_generate_password_hash "saltsalt" req
       (sample_state None)
     = (render_template "register.html" page, sample_state None)
  /\ fst (register sample_Email sample_generate_password_hash "saltsalt" req
            (sample_state None))
     <> redirect (url_for "login" None).
Proof.
  cbv zeta. split; [reflexivity|]. split; [reflexivity|].
  vm_compute. discriminate.
Defined.

(** Bob registers, logs out, and logs in again. *)
Lemma register_then_login_witness :
  let req := post_request [("email", "b@x.com"); ("password", "secret");
                           ("name", "Bob")] in
  let req' := post_request [("email", "b@x.com"); ("password", "secret")] in
  let st' := snd (register sample_Email sample_generate_password_hash
                    "saltsalt" req (sample_state None)) in
  exists new_user : User.t,
    User.password new_user = "pbkdf2:sha256$saltsalt$terces"
    /\ User.password new_user <> "secret"
    /\ login sample_Email sample_check_password_hash req' (logout_user st')
       = (redirect (url_for "get_all_posts" None),
          login_user new_user (logout_user st'))
    /\ current_user (login_user new_user (logout_user st')) = Some new_user.
Proof.
  intros req req' st'.
  destruct (register_then_login sample_Email sample_generate_password_hash
              sample_check_password_hash "saltsalt" req (sample_state None)
              st' eq_refl eq_refl)
    as (u & _ & _ & Hpw & Hplain & _ & Hlogin).
  exists u. split; [exact Hpw|].
  split; [apply Hplain; vm_compute; discriminate|].
  apply Hlogin; reflexivity.
Defined.

(** Alice mistypes her password. *)
Lemma login_failures_witness :
  let req := post_request [("email", "a@x.com"); ("password", "secreT")] in
  login sample_Email sample_check_password_hash req (sample_state None)
  = (redirect (url_for "login" None),
     flash "Incorrect Password. Please Try again" (sample_state None)).
Proof.
  intros req.
  destruct (login_failures sample_Email sample_check_password_hash req
              (sample_state None)) as [H _].
  destruct (H eq_refl) as [_ Hbad].
  apply (Hbad sample_alice); reflexivity.
Defined.

(** C4 as stated fails: no user has the email, the password has three
    characters, and the answer is the login page with no message flashed. *)
Lemma login_unknown_email_invalid_form :
  let req := post_request [("email", "nobody@x.com"); ("password", "abc")] in
  User_query_filter_by_email_first "nobody@x.com" (sample_state None) = None
  /\ login sample_Email sample_check_password_hash req (sample_state None)
     = (render_template "login.html" page, sample_state None)
  /\ flashes (snd (login sample_Email sample_check_password_hash req
                     (sample_state None)))
     <> ["This email doesn't exist. Please try again"].
Proof.
  cbv zeta. split; [reflexivity|]. split; [reflexivity|].
  vm_compute. discriminate.
Defined.

(** An anonymous visitor submits a comment on the first post. *)
Lemma anonymous_comment_not_stored_witness :
  let req := post_request [("comment", "<p>Hi</p>")] in
  show_post 1 req (sample_state None)
  = (redirect (url_for "login" None),
     flash "You need to log in or register to comment" (sample_state None))
  /\ comments (snd (show_post 1 req (sample_state None))) = [sample_comment].
Proof.
  intros req.
  destruct (anonymous_comment_not_stored 1 req (sample_state None) eq_refl)
    as (Hc & _ & Hv & _).
  split; [apply Hv; reflexivity | exact Hc].
Defined.

(** C5 as stated fails: an anonymous visitor submits an empty comment, and
    the answer is the post page, with no message and no redirect. *)
Lemma anonymous_empty_comment_not_redirected :
  let req := post_request [("comment", "")] in
  current_user (sample_state None) = None
  /\ show_post 1 req (sample_state None)
     = (render_template "post.html" (post_page (Some sample_post)),
        sample_state None)
  /\ fst (show_post 1 req (sample_state None))
     <> redirect (url_for "login" None)
  /\ flashes (snd (show_post 1 req (sample_state None))) = [].
Proof.
  cbv zeta. split; [reflexivity|]. split; [reflexivity|].
  split; [vm_compute; discriminate | reflexivity].
Defined.

(** The admin edits the first post. *)
Lemma edit_post_frame_witness :
  let req := post_request [("title", "T1 again"); ("subtitle", "edited");
                           ("img_url", "http://x.com/3.png");
                           ("body", "<p>New</p>")] in
  let st' := snd (edit_post_view sample_URL 1 req (sample_state (Some 1))) in
  BlogPost_query_get 1 st'
  = Some {| BlogPost.id := 1; BlogPost.author_id := Some 1;
            BlogPost.title := "T1 again"; BlogPost.subtitle := "edited";
            BlogPost.date := "October 31, 2026";
            BlogPost.body := "<p>New</p>";
            BlogPost.img_url := "http://x.com/3.png" |}
  /\ nth_error (blog_posts st') 1 = Some sample_other_post
  /\ users st' = users (sample_state (Some 1))
  /\ comments st' = comments (sample_state (Some 1)).
Proof.
  intros req st'.
  destruct (edit_post_frame sample_URL 1 req (sample_state (Some 1)) st'
              (url_for "show_post" (Some 1)) eq_refl)
    as (post & Hget & _ & H).
  cbv zeta in H.
  destruct H as (_ & Hnew & _ & _ & _ & _ & _ & _ & _ & Hrest & _ & Hus
                 & Hcs & _).
  injection Hget as <-.
  split; [exact Hnew|].
  split; [apply Hrest; [reflexivity | cbn; lia]|].
  split; [exact Hus | exact Hcs].
Defined.

(** The admin publishes a post on 6 November 2026, and one on the last day
    of January 1999. *)
Lemma add_new_post_creates_witness :
  let req := post_request [("title", "T3"); ("subtitle", "third");
                           ("img_url", "http://x.com/3.png");
                           ("body", "<p>More</p>")] in
  let earlier := {| year := 1999; month := 1; day := 31 |} in
  let st' := snd (new_post_view sample_URL sample_today req
                    (sample_state (Some 1))) in
  let st'' := snd (new_post_view sample_URL earlier req
                     (sample_state (Some 1))) in
  (exists new_post : BlogPost.t,
      blog_posts st' = [sample_post; sample_other_post; new_post]
      /\ BlogPost.date new_post = "November 06, 2026"
      /\ Month_DD_YYYY sample_today (BlogPost.date new_post)
      /\ BlogPost.author_id new_post = Some 1)
  /\ (exists new_post : BlogPost.t,
        blog_posts st'' = [sample_post; sample_other_post; new_post]
        /\ BlogPost.date new_post = "January 31, 1999"
        /\ Month_DD_YYYY earlier (BlogPost.date new_post)).
Proof.
  intros req earlier st' st''. split.
  - destruct (add_new_post_creates sample_URL sample_today req
                (sample_state (Some 1))) as [H _].
    destruct (H (url_for "get_all_posts" None) st' eq_refl)
      as (author & new_post & Hcur & _ & Hst & Hdate & Hwords & Hauthor & _).
    injection Hcur as <-.
    exists new_post. split; [rewrite Hst; reflexivity|].
    split; [exact Hdate|].
    split; [apply Hwords; unfold valid_date; cbn; lia | exact Hauthor].
  - destruct (add_new_post_creates sample_URL earlier req
                (sample_state (Some 1))) as [H _].
    destruct (H (url_for "get_all_posts" None) st'' eq_refl)
      as (author & new_post & _ & _ & Hst & Hdate & Hwords & _).
    exists new_post. split; [rewrite Hst; reflexivity|].
    split; [exact Hdate|].
    apply Hwords. unfold valid_date. cbn. lia.
Defined.

(** Nobody has posted number 7: the post page renders without a post, and
    the admin's delete ends in the unmapped-instance error. *)
Lemma missing_post_not_reported_witness :
  show_post 7 get_request (sample_state None)
  = (render_template "post.html" (post_page None), sample_state None)
  /\ delete_view 7 get_request (sample_state (Some 1))
     = (raised UnmappedInstanceError, sample_state (Some 1)).
Proof.
  split.
  - destruct (missing_post_not_reported 7 get_request (sample_state None)
                ltac:(unfold sqlite_integer; lia) eq_refl)
      as (_ & _ & H & _).
    apply H. reflexivity.
  - destruct (missing_post_not_reported 7 get_request
                (sample_state (Some 1)) ltac:(unfold sqlite_integer; lia)
                eq_refl) as (_ & _ & _ & _ & _ & H).
    apply (H sample_admin); reflexivity.
Defined.

(** C8 as stated fails: no post has id 7, the post page is rendered all the
    same, and the delete view ends in an error that is not a not-found
    one. *)
Lemma missing_post_no_not_found :
  BlogPost_query_get 7 (sample_state None) = None
  /\ show_post 7 get_request (sample_state None)
     = (render_template "post.html" (post_page None), sample_state None)
  /\ fst (show_post 7 get_request (sample_state None)) <> abort 404
  /\ delete_view 7 get_request (sample_state (Some 1))
     = (raised UnmappedInstanceError, sample_state (Some 1))
  /\ fst (delete_view 7 get_request (sample_state (Some 1))) <> abort 404.
Proof.
  split; [reflexivity|]. split; [reflexivity|].
  split; [vm_compute; discriminate|].
  split; [reflexivity | vm_compute; discriminate].
Defined.

(** The admin deletes the first post; Alice's comment on it stays in the
    table, without a parent post. *)
Lemma delete_post_effect_witness :
  let st' := snd (delete_view 1 get_request (sample_state (Some 1))) in
  blog_posts st' = [sample_other_post]
  /\ ~ In sample_post (blog_posts st')
  /\ comments st'
     = [ {| Comment.id := 1; Comment.author_id := Some 2;
            Comment.post_id := None; Comment.text := "<p>Nice</p>" |} ].
Proof.
  intros st'.
  destruct (delete_post_effect 1 get_request (sample_state (Some 1)) st'
              (url_for "get_all_posts" None) eq_refl)
    as (post & Hget & _ & _ & Hgone & _ & _ & _ & Hcs & _).
  injection Hget as <-.
  split; [reflexivity|]. split; [exact Hgone | exact Hcs].
Defined.

(** A four-character password at registration and at login. *)
Lemma short_password_or_bad_email_rejected_witness :
  let req := post_request [("email", "c@x.com"); ("password", "abcd");
                           ("name", "Carol")] in
  register sample_Email sample_generate_password_hash "saltsalt" req
    (sample_state None)
  = (render_template "register.html" page, sample_state None)
  /\ login sample_Email sample_check_password_hash req (sample_state None)
     = (render_template "login.html" page, sample_state None).
Proof.
  intros req.
  destruct (short_password_or_bad_email_rejected sample_Email
              sample_generate_password_hash sample_check_password_hash
              "saltsalt" req (sample_state None)) as [Hr Hl].
  split.
  - apply Hr. left. cbn. lia.
  - apply Hl. left. cbn. lia.
Defined.

(** ** The further properties on the sample data *)

Lemma sample_keys_unique (session : option Z) :
  keys_unique (sample_state session).
Proof.
  unfold keys_unique. cbn.
  repeat split; repeat constructor; cbn; intuition discriminate.
Qed.

Lemma sample_unique_columns (session : option Z) :
  unique_columns (sample_state session).
Proof.
  unfold unique_columns. cbn.
  repeat split; repeat constructor; cbn; intuition discriminate.
Qed.

Lemma sample_references_valid :
  references_valid (sample_state (Some 1)).
Proof.
  unfold references_valid. cbn. repeat split.
  - intros uid H. injection H as <-. auto.
  - intros p [<- | [<- | []]]; exists 1; cbn; auto.
  - intros c [<- | []]. exists 2. cbn. auto.
  - intros c pid [<- | []] H. injection H as <-. auto.
Qed.

(** Bob registers: the ids stay distinct. *)
Lemma dispatch_keeps_primary_keys_witness :
  keys_unique
    (snd (dispatch sample_Email sample_URL sample_generate_password_hash
            sample_check_password_hash "saltsalt" sample_today rule_register
            (post_request [("email", "b@x.com"); ("password", "secret");
                           ("name", "Bob")])
            (sample_state None))).
Proof.
  apply dispatch_keeps_primary_keys. apply sample_keys_unique.
Defined.

(** The admin renames the first post: emails and titles stay distinct. *)
Lemma dispatch_keeps_unique_columns_witness :
  unique_columns
    (snd (dispatch sample_Email sample_URL sample_generate_password_hash
            sample_check_password_hash "saltsalt" sample_today
            (rule_edit_post 1)
            (post_request [("title", "T1 again")])
            (sample_state (Some 1)))).
Proof.
  apply dispatch_keeps_unique_columns;
    [apply sample_keys_unique | apply sample_unique_columns].
Defined.

(** The admin deletes the commented post: no reference dangles. *)
Lemma dispatch_keeps_references_witness :
  references_valid
    (snd (dispatch sample_Email sample_URL sample_generate_password_hash
            sample_check_password_hash "saltsalt" sample_today
            (rule_delete_post 1) get_request (sample_state (Some 1)))).
Proof.
  apply dispatch_keeps_references. apply sample_references_valid.
Defined.

(** Alice posts a valid new-post form: the post table is what it was. *)
Lemma only_admin_changes_posts_witness :
  blog_posts
    (snd (dispatch sample_Email sample_URL sample_generate_password_hash
            sample_check_password_hash "saltsalt" sample_today
            rule_add_new_post
            (post_request [("title", "T3"); ("subtitle", "third");
                           ("img_url", "http://x.com/3.png");
                           ("body", "<p>More</p>")])
            (sample_state (Some 2))))
  = [sample_post; sample_other_post].
Proof.
  apply (only_admin_changes_posts sample_Email sample_URL
           sample_generate_password_hash sample_check_password_hash
           "saltsalt" sample_today rule_add_new_post _
           (sample_state (Some 2))).
  intros user H. change (Some sample_alice = Some user) in H.
  injection H as <-. cbn. lia.
Defined.

(** Alice logs out with a plain [HEAD]. *)
Lemma state_changing_requests_witness :
  let req := {| method := HEAD; csrf_token_valid := false; form := [] |} in
  ((method req = GET \/ method req = HEAD)
   /\ (rule_logout = rule_logout
       \/ exists post_id, rule_logout = rule_delete_post post_id))
  \/ method req = POST /\ csrf_token_valid req = true
     /\ (rule_logout = rule_register \/ rule_logout = rule_login
         \/ rule_logout = rule_add_new_post
         \/ (exists post_id, rule_logout = rule_edit_post post_id)
         \/ (exists post_id, rule_logout = rule_show_post post_id)).
Proof.
  intros req.
  apply (state_changing_requests sample_Email sample_URL
           sample_generate_password_hash sample_check_password_hash
           "saltsalt" sample_today rule_logout req
           (sample_state (Some 2))).
  vm_compute. discriminate.
Defined.

(** Alice comments on the first post. *)
Lemma comment_stored_witness :
  let req := post_request [("comment", "<p>Hi</p>")] in
  exists new_comment : Comment.t,
    blog_comments sample_post (snd (show_post 1 req (sample_state (Some 2))))
    = [sample_comment; new_comment]
    /\ Comment.author_id new_comment = Some 2
    /\ Comment.text new_comment = "<p>Hi</p>".
Proof.
  intros req.
  destruct (comment_stored 1 req (sample_state (Some 2)) sample_alice
              sample_post eq_refl eq_refl eq_refl)
    as (c & _ & _ & Hauthor & _ & Htext & Hlist & _).
  exists c. split; [exact Hlist|]. split; [exact Hauthor | exact Htext].
Defined.

(** Alice logs in. *)
Lemma login_establishes_session_witness :
  let req := post_request [("email", "a@x.com"); ("password", "secret")] in
  current_user (snd (login sample_Email sample_check_password_hash req
                       (sample_state None)))
  = Some sample_alice.
Proof.
  intros req.
  apply (login_establishes_session sample_Email sample_check_password_hash
           req (sample_state None) sample_alice);
    [apply sample_keys_unique | reflexivity | reflexivity | reflexivity].
Defined.

(** No session, and a session whose user id is nobody's. *)
Lemma anonymous_turned_away_witness :
  delete_view 1 get_request (sample_state None)
  = (unauthorized, sample_state None)
  /\ delete_view 1 get_request (sample_state (Some 9))
     = (unauthorized, sample_state (Some 9)).
Proof.
  split.
  - apply (anonymous_turned_away sample_URL sample_today 1 get_request
             (sample_state None) eq_refl).
  - apply (anonymous_turned_away sample_URL sample_today 1 get_request
             (sample_state (Some 9)) eq_refl).
Defined.

(** The first registration on an empty database. *)
Lemma first_user_is_admin_witness :
  let st := {| users := []; blog_posts := []; comments := [];
               session_user_id := None; flashes := [] |} in
  let req := post_request [("email", "admin@x.com"); ("password", "hunter22");
                           ("name", "Admin")] in
  exists (new_user : User.t) (st' : State),
    register sample_Email sample_generate_password_hash "Zq3xLm0p" req st
    = (redirect (url_for "get_all_posts" None), st')
    /\ User.id new_user = 1
    /\ delete_view 1 get_request st' = delete_post 1 get_request st'.
Proof.
  intros st req.
  destruct (first_user_is_admin sample_Email sample_generate_password_hash
              "Zq3xLm0p" req st eq_refl eq_refl)
    as (u & st' & Hreg & _ & Hid & _ & Hadmin).
  exists u, st'. split; [exact Hreg|]. split; [exact Hid|].
  apply Hadmin.
Defined.

(** Bob registers after the admin and tries to publish. *)
Lemma later_user_is_not_admin_witness :
  let req := post_request [("email", "b@x.com"); ("password", "secret");
                           ("name", "Bob")] in
  let st' := snd (register sample_Email sample_generate_password_hash
                    "saltsalt" req (sample_state None)) in
  new_post_view sample_URL sample_today
    (post_request [("title", "T1"); ("subtitle", "s");
                   ("img_url", "http://x.com/1.png"); ("body", "b")]) st'
  = (abort 403, st').
Proof.
  intros req st'.
  destruct (later_user_is_not_admin sample_Email sample_URL
              sample_generate_password_hash "saltsalt" req
              (sample_state None) st')
    as (u & _ & _ & H).
  - cbn. auto.
  - reflexivity.
  - apply (H sample_today 1).
Defined.

(** Bob registers twice, the second time with another password. *)
Lemma register_twice_witness :
  let req := post_request [("email", "b@x.com"); ("password", "secret");
                           ("name", "Bob")] in
  let req' := post_request [("email", "b@x.com"); ("password", "another");
                            ("name", "Robert")] in
  let st' := snd (register sample_Email sample_generate_password_hash
                    "saltsalt" req (sample_state None)) in
  register sample_Email sample_generate_password_hash "pepper00" req' st'
  = (redirect (url_for "login" None),
     flash "You've already Sign up with that email. Please login" st').
Proof.
  intros req req' st'.
  apply (register_twice sample_Email sample_generate_password_hash
           "saltsalt" "pepper00" req req' (sample_state None) st' st');
    reflexivity.
Defined.

(** The admin asks for the edit form of post 7. *)
Lemma edit_missing_post_witness :
  edit_post_view sample_URL 7 get_request (sample_state (Some 1))
  = (raised AttributeError, sample_state (Some 1)).
Proof.
  apply (edit_missing_post sample_URL 7 get_request (sample_state (Some 1))
           sample_admin); try reflexivity.
  unfold sqlite_integer. lia.
Defined.

(** The admin gives the first post the title of the second. *)
Lemma edit_duplicate_title_witness :
  edit_post_view sample_URL 1 (post_request [("title", "T2")])
    (sample_state (Some 1))
  = (raised IntegrityError, sample_state (Some 1)).
Proof.
  apply (edit_duplicate_title sample_URL 1 (post_request [("title", "T2")])
           (sample_state (Some 1)) sample_admin sample_post
           sample_other_post);
    try reflexivity.
  - cbn. auto.
  - cbn. lia.
Defined.

(** The admin submits the edit form of the first post unchanged. *)
Lemma edit_same_values_witness :
  let req := post_request [("title", "T1"); ("subtitle", "first");
                           ("img_url", "http://x.com/1.png");
                           ("body", "<p>Hello</p>")] in
  edit_post_view sample_URL 1 req (sample_state (Some 1))
  = (redirect (url_for "show_post" (Some 1)), sample_state (Some 1)).
Proof.
  intros req.
  apply (edit_same_values sample_URL 1 req (sample_state (Some 1))
           sample_admin sample_post);
    try reflexivity.
  - apply sample_keys_unique.
  - apply sample_unique_columns.
Defined.

(** The admin publishes a third post and looks it up. *)
Lemma created_post_lookup_witness :
  let req := post_request [("title", "T3"); ("subtitle", "third");
                           ("img_url", "http://x.com/3.png");
                           ("body", "<p>More</p>")] in
  let st' := snd (new_post_view sample_URL sample_today req
                    (sample_state (Some 1))) in
  exists new_post : BlogPost.t,
    BlogPost_query_get (BlogPost.id new_post) st' = Some new_post
    /\ BlogPost_query_get 2 st' = Some sample_other_post
    /\ blog_posts st' = [sample_post; sample_other_post; new_post].
Proof.
  intros req st'.
  destruct (created_post_lookup sample_URL sample_today req
              (sample_state (Some 1)) st' (url_for "get_all_posts" None)
              eq_refl)
    as (p & Hps & _ & Hnew & Hold & _).
  exists p. split; [exact Hnew|].
  split; [apply Hold; reflexivity | exact Hps].
Defined.

(** The admin deletes the first post and then tries again. *)
Lemma delete_then_witness :
  let st' := snd (delete_view 1 get_request (sample_state (Some 1))) in
  delete_view 1 get_request st' = (raised UnmappedInstanceError, st')
  /\ BlogPost_query_get 2 st' = Some sample_other_post.
Proof.
  intros st'.
  destruct (delete_then sample_URL 1 get_request (sample_state (Some 1)) st'
              (url_for "get_all_posts" None) eq_refl)
    as (Hdel & _ & _ & Hother & _).
  split; [apply Hdel|].
  rewrite Hother; [reflexivity | lia].
Defined.

(** Alice logs in: the session changed, and it names the user whose hash
    her password passed. *)
Lemma session_changes_only_by_authentication_witness :
  let req := post_request [("email", "a@x.com"); ("password", "secret")] in
  exists user : User.t,
    User_query_filter_by_email_first "a@x.com" (sample_state None) = Some user
    /\ sample_check_password_hash (User.password user) "secret" = true
    /\ session_user_id
         (snd (dispatch sample_Email sample_URL sample_generate_password_hash
                 sample_check_password_hash "saltsalt" sample_today
                 rule_login req (sample_state None)))
       = Some (User.id user).
Proof.
  intros req.
  destruct (session_changes_only_by_authentication sample_Email sample_URL
              sample_generate_password_hash sample_check_password_hash
              "saltsalt" sample_today rule_login req (sample_state None))
    as [[H _] | [[_ (u & _ & Hq & Hc & Hs)] | [H _]]].
  - vm_compute. discriminate.
  - discriminate H.
  - exists u. split; [exact Hq|]. split; [exact Hc | exact Hs].
  - discriminate H.
Defined.

(** Alice logs out and then submits a comment. *)
Lemma logout_ends_session_witness :
  let st' := snd (logout get_request (sample_state (Some 2))) in
  let req' := post_request [("comment", "<p>Hi</p>")] in
  current_user st' = None
  /\ show_post 1 req' st'
     = (redirect (url_for "login" None),
        flash "You need to log in or register to comment" st').
Proof.
  intros st' req'.
  destruct (logout_ends_session sample_URL sample_today 1 get_request req'
              (sample_state (Some 2)))
    as (_ & Hcur & _ & _ & _ & _ & _ & _ & _ & Hcomment).
  split; [exact Hcur | apply Hcomment; reflexivity].
Defined.

(** Bob's registration goes through. *)
Lemma register_new_email_succeeds_witness :
  let req := post_request [("email", "b@x.com"); ("password", "secret");
                           ("name", "Bob")] in
  exists new_user : User.t,
    register sample_Email sample_generate_password_hash "saltsalt" req
      (sample_state None)
    = (redirect (url_for "get_all_posts" None),
       login_user new_user
         (set_users [sample_admin; sample_alice; new_user]
            (sample_state None)))
    /\ User.name new_user = "Bob".
Proof.
  intros req.
  destruct (register_new_email_succeeds sample_Email
              sample_generate_password_hash "saltsalt" req
              (sample_state None) eq_refl eq_refl)
    as (u & Hreg & _ & _ & _ & Hname & _).
  exists u. split; [exact Hreg | exact Hname].
Defined.

(** Alice submits a comment of spaces and a line break. *)
Lemma blank_comment_rejected_witness :
  let req := post_request [("comment", "  " ++ String "010" "")] in
  show_post 1 req (sample_state (Some 2))
  = (render_template "post.html" (post_page (Some sample_post)),
     sample_state (Some 2)).
Proof.
  intros req.
  destruct (blank_comment_rejected 1 req (sample_state (Some 2))) as [_ H].
  apply H. reflexivity.
Defined.

(** The admin submits a new post with a blank body, and one with an image
    URL the validator refuses. *)
Lemma blank_post_fields_rejected_witness :
  let req := post_request [("title", "T3"); ("subtitle", "third");
                           ("img_url", "http://x.com/3.png");
                           ("body", " ")] in
  let req' := post_request [("title", "T3"); ("subtitle", "third");
                            ("img_url", "x.com/3.png");
                            ("body", "<p>More</p>")] in
  snd (new_post_view sample_URL sample_today req (sample_state (Some 1)))
  = sample_state (Some 1)
  /\ snd (new_post_view sample_URL sample_today req' (sample_state (Some 1)))
     = sample_state (Some 1).
Proof.
  intros req req'.
  split.
  - destruct (blank_post_fields_rejected sample_URL sample_today 1 req
                (sample_state (Some 1))) as [H _].
    apply H. right. right. right. left. reflexivity.
  - destruct (blank_post_fields_rejected sample_URL sample_today 1 req'
                (sample_state (Some 1))) as [H _].
    apply H. right. right. right. right. reflexivity.
Defined.
